(** * Progress tracking: [progress.py]

    A shallow embedding of the progress tracker (the counter over
    [feature_list.json], the milestone evaluator, the two notification sinks
    and the [.progress_cache] writer) and the properties of its
    specification. *)

From stdpp Require Import gmap strings list fin_maps pretty sorting.

Set Warnings "-register-all".
Set Default Proof Using "Type".

Open Scope Z_scope.

(** ** Python values *)

(** What [json.load] returns.  [F] is the type of Python floats (a JSON
    number with a fraction or an exponent).  [JObj] keeps the members of a JSON
    object in document order; [to_dict] below builds the Python dict. *)
Inductive json (F : Type) : Type :=
| JNull
| JBool (b : bool)
| JInt (z : Z)
| JFloat (f : F)
| JStr (s : string)
| JArr (l : list (json F))
| JObj (kvs : list (string * json F)).

Arguments JNull {F}.
Arguments JBool {F} b.
Arguments JInt {F} z.
Arguments JFloat {F} f.
Arguments JStr {F} s.
Arguments JArr {F} l.
Arguments JObj {F} kvs.

(** The parts of the Python runtime that the tracker relies on and that are
    not integer, string or list computations: comparison and arithmetic of a
    float with an int, and [repr] of a float or a container. *)
Class PyRuntime : Type := {
  float : Type;
  (** [x ? z] for a float [x] and an int [z]; [None] when [x] is NaN. *)
  float_cmp_int : float → Z → option comparison;
  (** [x // z] *)
  float_floordiv_int : float → Z → float;
  (** [x * z] *)
  float_mul_int : float → Z → float;
  (** [z - x] *)
  int_sub_float : Z → float → float;
  (** [str(v)] for a float, a list or a dict [v]. *)
  py_repr : json float → string;
}.

(** The exceptions the tracker can meet. *)
Inductive exn : Set :=
| TypeError
| AttributeError
| ZeroDivisionError
| OSError
| UnicodeDecodeError
| JSONDecodeError.

Inductive outcome (A : Type) : Type :=
| Ret (a : A)
| Raise (e : exn).

Arguments Ret {A} a.
Arguments Raise {A} e.

(** Sequencing: an exception skips the rest of the block. *)
Global Instance outcome_ret : MRet outcome := @Ret.
Global Instance outcome_bind : MBind outcome := λ A B k m,
  match m with
  | Ret a => k a
  | Raise e => Raise e
  end.

(** A Python number as arithmetic sees it: [bool] is a subclass of [int]. *)
Inductive number (F : Type) : Type :=
| NInt (z : Z)
| NFloat (f : F).

Arguments NInt {F} z.
Arguments NFloat {F} f.

(** A float that the tracker computes itself, kept as the expression that
    produces it. *)
Inductive fexpr : Set :=
| FTrueDiv (a b : Z)            (* a / b on ints *)
| FMul (x : fexpr) (k : Z)      (* x * k *)
| FRound (x : fexpr) (nd : Z).  (* round(x, nd) *)

(** The value of a [percentage] expression: the int literal [0] or a float. *)
Inductive percent : Set :=
| PInt (z : Z)
| PFloat (x : fexpr).

(** [s[:n]] *)
Fixpoint str_take (n : nat) (s : string) : string :=
  match n, s with
  | S n', String c s' => String c (str_take n' s')
  | _, _ => EmptyString
  end.

(** The characters of a str, each as a str of length one. *)
Fixpoint str_chars (s : string) : list string :=
  match s with
  | EmptyString => []
  | String c s' => String c EmptyString :: str_chars s'
  end.

Abbreviation value := (json float).

(** A [Path], by its components. *)
Abbreviation path := (list string).

Section Python.
Context {RT : PyRuntime}.

(** [json.loads] on an object: members are inserted in document order, a
    repeated key keeps its last value. *)
Definition to_dict (kvs : list (string * value)) : gmap string value :=
  foldl (λ d kv, <[kv.1 := kv.2]> d) ∅ kvs.

(** The keys of the dict, in insertion order (a key stays where it was first
    inserted). *)
Definition dict_keys (kvs : list (string * value)) : list string :=
  reverse (remove_dups (reverse (kvs.*1))).

(** [bool(v)] *)
Definition truthy (v : value) : bool :=
  match v with
  | JNull => false
  | JBool b => b
  | JInt z => negb (z =? 0)
  | JFloat f => match float_cmp_int f 0 with Some Eq => false | _ => true end
  | JStr s => match s with EmptyString => false | _ => true end
  | JArr l => match l with [] => false | _ => true end
  | JObj kvs => match kvs with [] => false | _ => true end
  end.

Definition isinstance_list (v : value) : bool :=
  match v with JArr _ => true | _ => false end.

Definition isinstance_dict (v : value) : bool :=
  match v with JObj _ => true | _ => false end.

(** [d.get(key, default)] on a dict. *)
Definition dict_get (kvs : list (string * value)) (key : string) (dflt : value) : value :=
  default dflt (to_dict kvs !! key).

(** [v.get(key, default)]: only a dict has the method. *)
Definition py_get (v : value) (key : string) (dflt : value) : outcome value :=
  match v with
  | JObj kvs => Ret (dict_get kvs key dflt)
  | _ => Raise AttributeError
  end.

(** [len(v)] *)
Definition py_len (v : value) : outcome Z :=
  match v with
  | JStr s => Ret (Z.of_nat (String.length s))
  | JArr l => Ret (Z.of_nat (length l))
  | JObj kvs => Ret (Z.of_nat (length (dict_keys kvs)))
  | _ => Raise TypeError
  end.

(** [iter(v)]: the items a [for] loop over [v] visits. *)
Definition py_iter (v : value) : outcome (list value) :=
  match v with
  | JStr s => Ret (JStr <$> str_chars s)
  | JArr l => Ret l
  | JObj kvs => Ret (JStr <$> dict_keys kvs)
  | _ => Raise TypeError
  end.

Definition hashable (v : value) : bool :=
  match v with JArr _ | JObj _ => false | _ => true end.

(** [set(v)].  Only membership is ever asked of the result, so the set is
    kept as the list of its elements. *)
Definition py_set (v : value) : outcome (list value) :=
  items ← py_iter v;
  if forallb hashable items then Ret items else Raise TypeError.

(** [v] as an operand of arithmetic or of an ordering comparison with an
    int. *)
Definition as_number (v : value) : outcome (number float) :=
  match v with
  | JInt z => Ret (NInt z)
  | JBool b => Ret (NInt (if b then 1 else 0))
  | JFloat f => Ret (NFloat f)
  | _ => Raise TypeError
  end.

(** [z > n] *)
Definition int_gt (z : Z) (n : number float) : bool :=
  match n with
  | NInt z' => z' <? z
  | NFloat f => match float_cmp_int f z with Some Lt => true | _ => false end
  end.

(** [n // k] for an int [k] other than zero. *)
Definition num_floordiv (n : number float) (k : Z) : number float :=
  match n with
  | NInt z => NInt (z `div` k)
  | NFloat f => NFloat (float_floordiv_int f k)
  end.

(** [n * k] *)
Definition num_mul (n : number float) (k : Z) : number float :=
  match n with
  | NInt z => NInt (z * k)
  | NFloat f => NFloat (float_mul_int f k)
  end.

(** [z - n] *)
Definition int_sub (z : Z) (n : number float) : number float :=
  match n with
  | NInt z' => NInt (z - z')
  | NFloat f => NFloat (int_sub_float z f)
  end.

(** [i in s] for an int [i]: equality in Python identifies [1], [True] and
    [1.0]. *)
Definition int_eq_value (i : Z) (v : value) : bool :=
  match v with
  | JInt z => z =? i
  | JBool b => (if b then 1 else 0) =? i
  | JFloat f => match float_cmp_int f i with Some Eq => true | _ => false end
  | _ => false
  end.

Definition int_in (i : Z) (s : list value) : bool := existsb (int_eq_value i) s.

(** [str(v)], as an f-string formats [v]. *)
Definition py_str (v : value) : string :=
  match v with
  | JStr s => s
  | JNull => "None"
  | JBool true => "True"
  | JBool false => "False"
  | JInt z => pretty z
  | _ => py_repr v
  end.

(** [a / b] on ints. *)
Definition py_truediv (a b : Z) : outcome fexpr :=
  if b =? 0 then Raise ZeroDivisionError else Ret (FTrueDiv a b).

(** ** Files, configuration and effects *)

(** [dir / name] *)
Definition path_join (dir : path) (name : string) : path := dir ++ [name].

(** [p.name] *)
Definition path_name (p : path) : string := default "" (last p).

(** What reading an existing file as JSON gives. *)
Inductive file : Type :=
| Unreadable        (* open or read fails: OSError *)
| NotText           (* bytes that do not decode: UnicodeDecodeError *)
| NotJson           (* text that is not JSON: json.JSONDecodeError *)
| Json (j : value). (* text that parses to [j] *)

Definition json_load (f : file) : outcome value :=
  match f with
  | Unreadable => Raise OSError
  | NotText => Raise UnicodeDecodeError
  | NotJson => Raise JSONDecodeError
  | Json j => Ret j
  end.

(** The module-level settings, read from the process environment on import. *)
Record config : Set := {
  WEBHOOK_URL : option string;
  TELEGRAM_BOT_TOKEN : option string;
  TELEGRAM_CHAT_ID : option string;
}.

(** Truth value of [os.environ.get(...)]: unset and empty are both false. *)
Definition is_set (v : option string) : bool :=
  match v with
  | Some (String _ _) => true
  | _ => false
  end.

Definition PROGRESS_CACHE_FILE : string := ".progress_cache".
Definition TELEGRAM_MILESTONE_INTERVAL : Z := 10.

(** What one call observes of the clock and of the network. *)
Record oracle : Set := {
  now : string;              (* datetime.now().strftime('%Y-%m-%d %H:%M:%S') *)
  utcnow_isoformat : string; (* datetime.utcnow().isoformat() *)
  telegram_up : bool;        (* urlopen on the bot endpoint returns *)
  webhook_up : bool;         (* urlopen on WEBHOOK_URL returns *)
}.

(** The milestone text, by the values its f-strings interpolate. *)
Record milestone_message : Type := {
  msg_project : string;
  msg_passing : Z;
  msg_total : Z;
  msg_percentage : percent;
  msg_milestone : Z;
  msg_recent : list string;  (* the bullet lines under "Recently completed" *)
  msg_time : string;
}.

(** The dict posted to the webhook, a field per key. *)
Record payload : Type := {
  pl_event : string;
  pl_passing : Z;
  pl_total : Z;
  pl_percentage : percent;
  pl_previous_passing : value;
  pl_tests_completed_this_session : number float;
  pl_completed_tests : list value;
  pl_project : string;
  pl_timestamp : string;
}.

Inductive console_line : Set :=
| ProgressLine (passing total : Z) (percentage : fexpr)
| NotYetCreated
| TelegramFailed
| WebhookFailed.

Inductive effect : Type :=
| Print (line : console_line)
| TelegramPost (token chat_id : string) (text : milestone_message)
| WebhookPost (url : string) (body : list payload).

(** A computation over the file system that may raise and that leaves a
    trace of console lines and HTTP requests. *)
Definition io (A : Type) : Type :=
  gmap path file → outcome A * gmap path file * list effect.

Global Instance io_ret : MRet io := λ A a fs, (Ret a, fs, []).
Global Instance io_bind : MBind io := λ A B k m fs,
  match m fs with
  | (Ret a, fs1, out1) => let '(r, fs2, out2) := k a fs1 in (r, fs2, out1 ++ out2)
  | (Raise e, fs1, out1) => (Raise e, fs1, out1)
  end.

Definition lift {A} (m : outcome A) : io A := λ fs, (m, fs, []).
Definition perform (e : effect) : io () := λ fs, (Ret (), fs, [e]).

(** [p.exists()] *)
Definition path_exists (p : path) : io bool :=
  λ fs, (Ret (bool_decide (is_Some (fs !! p))), fs, []).

(** [json.load] / [json.loads] on the file at [p]. *)
Definition read_json (p : path) : io value :=
  λ fs, (match fs !! p with Some f => json_load f | None => Raise OSError end, fs, []).

(** [p.write_text(json.dumps(j))]; the project directory is taken to be
    writable. *)
Definition write_json (p : path) (j : value) : io () :=
  λ fs, (Ret (), <[p := Json j]> fs, []).

(** [try: body / except: handler], the bare [except]. *)
Definition try_except {A} (body : io A) (handler : io A) : io A := λ fs,
  match body fs with
  | (Raise _, fs1, out1) => let '(r, fs2, out2) := handler fs1 in (r, fs2, out1 ++ out2)
  | r => r
  end.

(** ** The tracker *)

Section Tracker.
Context (cfg : config).

(** [send_telegram_notification] *)
Definition send_telegram_notification (o : oracle) (message : milestone_message) : io bool :=
  if negb (is_set (TELEGRAM_BOT_TOKEN cfg)) || negb (is_set (TELEGRAM_CHAT_ID cfg)) then
    mret false
  else
    perform (TelegramPost (default "" (TELEGRAM_BOT_TOKEN cfg))
                          (default "" (TELEGRAM_CHAT_ID cfg)) message);;
    if telegram_up o then mret true
    else perform (Print TelegramFailed);; mret false.

(** [round((passing / total) * 100, 1) if total > 0 else 0] *)
Definition percentage_of (passing total : Z) : outcome percent :=
  if total >? 0 then
    q ← py_truediv passing total;
    mret (PFloat (FRound (FMul q 100) 1))
  else mret (PInt 0).

(** [test[:60] + "..." if len(test) > 60 else test], then formatted into the
    bullet line.  Slicing a dict and adding a str to a list both fail. *)
Definition shown_description (test : value) : outcome string :=
  n ← py_len test;
  if n >? 60 then
    match test with
    | JStr s => mret (str_take 60 s +:+ "...")
    | _ => Raise TypeError
    end
  else mret (py_str test).

(** [completed_tests[-5:] if len(completed_tests) > 5 else completed_tests] *)
Definition recent_of (completed_tests : list value) : list value :=
  if (5 <? length completed_tests)%nat
  then drop (length completed_tests - 5) completed_tests
  else completed_tests.

(** The message that [check_telegram_milestone] builds once a milestone is
    crossed. *)
Definition build_message (o : oracle) (passing total current_milestone : Z)
    (project_dir : path) (completed_tests : list value) : outcome milestone_message :=
  percentage ← percentage_of passing total;
  lines ← (if truthy (JArr completed_tests)
           then mapM shown_description (recent_of completed_tests)
           else mret []);
  mret {| msg_project := path_name project_dir;
          msg_passing := passing;
          msg_total := total;
          msg_percentage := percentage;
          msg_milestone := current_milestone;
          msg_recent := lines;
          msg_time := now o |}.

(** [check_telegram_milestone] *)
Definition check_telegram_milestone (o : oracle) (passing : Z) (previous : value)
    (total : Z) (project_dir : path) (completed_tests : list value) : io () :=
  if negb (is_set (TELEGRAM_BOT_TOKEN cfg)) || negb (is_set (TELEGRAM_CHAT_ID cfg)) then
    mret ()
  else
    prev ← lift (as_number previous);
    let previous_milestone :=
      num_mul (num_floordiv prev TELEGRAM_MILESTONE_INTERVAL) TELEGRAM_MILESTONE_INTERVAL in
    let current_milestone :=
      (passing `div` TELEGRAM_MILESTONE_INTERVAL) * TELEGRAM_MILESTONE_INTERVAL in
    if int_gt current_milestone previous_milestone then
      message ← lift (build_message o passing total current_milestone
                                    project_dir completed_tests);
      send_telegram_notification o message;;
      mret ()
    else mret ().

(** [for i, test in enumerate(tests)] inside a [try] whose handler is [pass]:
    an iteration that raises ends the loop, and what earlier iterations
    appended stays. *)
Fixpoint for_enumerate {St : Type} (body : nat → value → St → outcome St)
    (i : nat) (tests : list value) (acc : St) : St :=
  match tests with
  | [] => acc
  | test :: rest =>
    match body i test acc with
    | Ret acc' => for_enumerate body (S i) rest acc'
    | Raise _ => acc
    end
  end.

(** The loop body of the branch taken when the count went up; [acc] is
    [(completed_tests, current_passing_indices)].  [test.get] raises on a
    test that is not a dict, before anything is appended. *)
Definition note_newly_passing (previous_passing_tests : list value) (i : nat)
    (test : value) (acc : list value * list nat) : outcome (list value * list nat) :=
  let '(completed_tests, current_passing_indices) := acc in
  match test with
  | JObj kvs =>
    if truthy (dict_get kvs "passes" (JBool false)) then
      let current_passing_indices := current_passing_indices ++ [i] in
      if negb (int_in (Z.of_nat i) previous_passing_tests) then
        let desc := dict_get kvs "description" (JStr ("Test #" +:+ pretty (i + 1)%nat)) in
        let category := dict_get kvs "category" (JStr "") in
        if truthy category then
          mret (completed_tests ++ [JStr ("[" +:+ py_str category +:+ "] " +:+ py_str desc)],
                current_passing_indices)
        else mret (completed_tests ++ [desc], current_passing_indices)
      else mret (completed_tests, current_passing_indices)
    else mret acc
  | _ => Raise AttributeError
  end.

(** The loop body of the first-run branch; [acc] is
    [current_passing_indices]. *)
Definition note_passing (i : nat) (test : value) (acc : list nat) : outcome (list nat) :=
  match test with
  | JObj kvs =>
    if truthy (dict_get kvs "passes" (JBool false)) then mret (acc ++ [i]) else mret acc
  | _ => Raise AttributeError
  end.

(** [enumerate(tests)] on what [json.load] returned: a value that cannot be
    iterated raises, and the handler passes. *)
Definition enumerated (tests : outcome value) : list value :=
  match tests ≫= py_iter with
  | Ret items => items
  | Raise _ => []
  end.

(** The JSON text written to the cache file. *)
Definition cache_record (passing : Z) (current_passing_indices : list nat) : value :=
  JObj [("count", JInt passing);
        ("passing_indices", JArr ((λ i, JInt (Z.of_nat i)) <$> current_passing_indices))].

(** Lines 102-112: the cached count and the set of cached indices. *)
Definition read_previous (cache_file : path) : io (value * list value) :=
  path_exists cache_file ≫= λ cached : bool,
  if cached then
    try_except
      (cache_data ← read_json cache_file;
       previous ← lift (py_get cache_data "count" (JInt 0));
       indices ← lift (py_get cache_data "passing_indices" (JArr []));
       previous_passing_tests ← lift (py_set indices);
       mret (previous, previous_passing_tests))
      (mret (JInt 0, []))
  else mret (JInt 0, []).

(** Lines 117-137 and 174-184: the scan of the manifest. *)
Definition scan {St : Type} (body : nat → value → St → outcome St) (tests_file : path)
    (init : St) : io St := λ fs,
  match fs !! tests_file with
  | Some f => (Ret (for_enumerate body 0 (enumerated (json_load f)) init), fs, [])
  | None => (Ret init, fs, [])
  end.

(** Lines 143-164: the post to the webhook. *)
Definition post_webhook (o : oracle) (passing : Z) (previous : value) (total : Z)
    (project_dir : path) (completed_tests : list value) : io () :=
  if is_set (WEBHOOK_URL cfg) then
    percentage ← lift (percentage_of passing total);
    prev ← lift (as_number previous);
    let payload :=
      {| pl_event := "test_progress";
         pl_passing := passing;
         pl_total := total;
         pl_percentage := percentage;
         pl_previous_passing := previous;
         pl_tests_completed_this_session := int_sub passing prev;
         pl_completed_tests := completed_tests;
         pl_project := path_name project_dir;
         pl_timestamp := utcnow_isoformat o +:+ "Z" |} in
    perform (WebhookPost (default "" (WEBHOOK_URL cfg)) [payload]);;
    if webhook_up o then mret () else perform (Print WebhookFailed)
  else mret ().

(** [send_progress_webhook] *)
Definition send_progress_webhook (o : oracle) (passing total : Z) (project_dir : path) : io () :=
  let cache_file := path_join project_dir PROGRESS_CACHE_FILE in
  '(previous, previous_passing_tests) ← read_previous cache_file;
  prev ← lift (as_number previous);
  if int_gt passing prev then
    let tests_file := path_join project_dir "feature_list.json" in
    '(completed_tests, current_passing_indices) ←
      scan (note_newly_passing previous_passing_tests) tests_file ([], []);
    check_telegram_milestone o passing previous total project_dir completed_tests;;
    post_webhook o passing previous total project_dir completed_tests;;
    write_json cache_file (cache_record passing current_passing_indices)
  else
    path_exists cache_file ≫= λ cached : bool,
    if negb cached then
      let tests_file := path_join project_dir "feature_list.json" in
      current_passing_indices ← scan note_passing tests_file [];
      write_json cache_file (cache_record passing current_passing_indices)
    else mret ().

(** [isinstance(test, dict) and test.get("passes", False)] *)
Definition counts_as_passing (test : value) : bool :=
  match test with
  | JObj kvs => truthy (dict_get kvs "passes" (JBool false))
  | _ => false
  end.

(** [count_passing_tests]: the handler takes [json.JSONDecodeError] and
    [IOError] only. *)
Definition count_passing_tests (project_dir : path) (fs : gmap path file) : outcome (Z * Z) :=
  let tests_file := path_join project_dir "feature_list.json" in
  match fs !! tests_file with
  | None => Ret (0, 0)
  | Some f =>
    let body :=
      data ← json_load f;
      let tests :=
        match data with
        | JArr _ => data
        | JObj kvs =>
          match to_dict kvs !! "features" with
          | Some features => features
          | None => JArr []
          end
        | _ => JArr []
        end in
      total ← py_len tests;
      items ← py_iter tests;
      let passing := Z.of_nat (length (List.filter counts_as_passing items)) in
      mret (passing, total) in
    match body with
    | Raise JSONDecodeError | Raise OSError => Ret (0, 0)
    | r => r
    end
  end.

(** [print_progress_summary] *)
Definition print_progress_summary (o : oracle) (project_dir : path) : io () :=
  '(passing, total) ← (λ fs, (count_passing_tests project_dir fs, fs, []));
  if total >? 0 then
    percentage ← lift (py_truediv passing total);
    perform (Print (ProgressLine passing total (FMul percentage 100)));;
    send_progress_webhook o passing total project_dir
  else perform (Print NotYetCreated).

End Tracker.

(** ** Vocabulary of the properties *)

(** The claim's reading of a passing record: the field is the boolean
    [true] itself. *)
Definition passes_strictly (test : value) : bool :=
  match test with
  | JObj kvs =>
    match to_dict kvs !! "passes" with
    | Some (JBool true) => true
    | _ => false
    end
  | _ => false
  end.

(** The float [round((passing / total) * 100, 1)]. *)
Definition rounded_percentage (passing total : Z) : percent :=
  PFloat (FRound (FMul (FTrueDiv passing total) 100) 1).

(** The requests in a trace. *)
Definition telegram_posts (out : list effect) : list milestone_message :=
  omap (λ e, match e with TelegramPost _ _ m => Some m | _ => None end) out.

Definition webhook_posts (out : list effect) : list (list payload) :=
  omap (λ e, match e with WebhookPost _ body => Some body | _ => None end) out.

(** A description as a bullet line shows it: cut to 60 characters and
    marked with an ellipsis when longer. *)
Definition truncated (s : string) : string :=
  if (60 <? String.length s)%nat then str_take 60 s +:+ "..." else s.

(** What lines 102-112 leave in [previous] and [previous_passing_tests]. *)
Definition cached_progress (cache_file : path) (fs : gmap path file) : value * list value :=
  match fs !! cache_file with
  | Some f =>
    match (cache_data ← json_load f;
           previous ← py_get cache_data "count" (JInt 0);
           indices ← py_get cache_data "passing_indices" (JArr []);
           previous_passing_tests ← py_set indices;
           mret (previous, previous_passing_tests)) with
    | Ret r => r
    | Raise _ => (JInt 0, [])
    end
  | None => (JInt 0, [])
  end.

(** What a scan of the manifest leaves in its accumulator. *)
Definition scanned {St : Type} (body : nat → value → St → outcome St)
    (tests_file : path) (init : St) (fs : gmap path file) : St :=
  match fs !! tests_file with
  | Some f => for_enumerate body 0 (enumerated (json_load f)) init
  | None => init
  end.

(** The data model gives a feature record a [description] that is a
    string. *)
Definition record_text (test : value) : Prop :=
  match test with
  | JObj kvs =>
    match to_dict kvs !! "description" with
    | Some (JStr _) | None => True
    | Some _ => False
    end
  | _ => True
  end.

Definition descriptions_are_text (tests_file : path) (fs : gmap path file) : Prop :=
  ∀ l, fs !! tests_file = Some (Json (JArr l)) → Forall record_text l.

Definition is_str (v : value) : Prop := ∃ s, v = JStr s.

(** The values that have no [len] and cannot be iterated. *)
Definition unsized (v : value) : bool :=
  match v with
  | JNull | JBool _ | JInt _ | JFloat _ => true
  | _ => false
  end.

End Python.

(** ** Running the model *)

(** A runtime for JSON without fractional numbers: there is no float to
    compare or to print.  It serves to run the tracker on concrete manifests
    and caches; none of those below has a container formatted into a str. *)
Definition integer_runtime : PyRuntime :=
  {| float := Empty_set;
     float_cmp_int f _ := match f with end;
     float_floordiv_int f _ := match f with end;
     float_mul_int f _ := match f with end;
     int_sub_float _ f := match f with end;
     py_repr _ := "" |}.

Module Sample.
#[local] Existing Instance integer_runtime.

Definition project_dir : path := ["generations"; "my_project"].
Definition tests_file : path := path_join project_dir "feature_list.json".
Definition cache_file : path := path_join project_dir PROGRESS_CACHE_FILE.

(** A feature record [{"description": d, "passes": p}]. *)
Definition feature (d : string) (p : bool) : value :=
  JObj [("description", JStr d); ("passes", JBool p)].

(** A project directory that holds the manifest [m] and no cache. *)
Definition fresh (m : value) : gmap path file := {[ tests_file := Json m ]}.

(** The same with a cache file of content [c]. *)
Definition cached (m c : value) : gmap path file :=
  <[ cache_file := Json c ]> (fresh m).

Definition all_sinks : config :=
  {| WEBHOOK_URL := Some "https://n8n.example/webhook/progress";
     TELEGRAM_BOT_TOKEN := Some "123:abc";
     TELEGRAM_CHAT_ID := Some "42" |}.

Definition no_sink : config :=
  {| WEBHOOK_URL := None; TELEGRAM_BOT_TOKEN := None; TELEGRAM_CHAT_ID := None |}.

Definition clock : oracle :=
  {| now := "2025-01-01 12:00:00";
     utcnow_isoformat := "2025-01-01T11:00:00.000000";
     telegram_up := true;
     webhook_up := true |}.
End Sample.

(** ** Properties *)

(** Discharges [descriptions_are_text] on a concrete project. *)
Ltac sample_descriptions_are_text :=
  let l := fresh "l" in
  let Hl := fresh "Hl" in
  intros l Hl; vm_compute in Hl; injection Hl as <-;
  repeat constructor.

Section Properties.
Context {RT : PyRuntime}.

(** *** The io monad *)

Lemma io_bind_eq {A B} (m : io A) (k : A → io B) fs :
  (m ≫= k) fs =
  match m fs with
  | (Ret a, fs1, out1) => let '(r, fs2, out2) := k a fs1 in (r, fs2, out1 ++ out2)
  | (Raise e, fs1, out1) => (Raise e, fs1, out1)
  end.
Proof. reflexivity. Qed.

Lemma io_bind_ret {A B} (m : io A) (k : A → io B) fs a fs1 out1 :
  m fs = (Ret a, fs1, out1) →
  (m ≫= k) fs = let '(r, fs2, out2) := k a fs1 in (r, fs2, out1 ++ out2).
Proof. intros Hm. rewrite io_bind_eq, Hm. reflexivity. Qed.

Lemma io_bind_raise {A B} (m : io A) (k : A → io B) fs e fs1 out1 :
  m fs = (Raise e, fs1, out1) → (m ≫= k) fs = (Raise e, fs1, out1).
Proof. intros Hm. rewrite io_bind_eq, Hm. reflexivity. Qed.

Lemma io_bind_lift {A B} (m : outcome A) (k : A → io B) fs :
  (lift m ≫= k) fs =
  match m with
  | Ret a => k a fs
  | Raise e => (Raise e, fs, [])
  end.
Proof.
  rewrite io_bind_eq. unfold lift. destruct m as [a|e]; [|done].
  by destruct (k a fs) as [[r fs2] out2].
Qed.

(** *** Lengths *)

Lemma length_str_chars s : length (str_chars s) = String.length s.
Proof. induction s as [|c s IH]; simpl; [done|]. by rewrite IH. Qed.

Lemma py_len_iter (v : value) n :
  py_len v = Ret n → ∃ items, py_iter v = Ret items ∧ n = Z.of_nat (length items).
Proof.
  destruct v; simpl; intros Hn; try discriminate; injection Hn as <-.
  - eexists; split; [done|]. by rewrite length_fmap, length_str_chars.
  - by eexists.
  - eexists; split; [done|]. by rewrite length_fmap.
Qed.

Lemma length_filter_le {A} (f : A → bool) l :
  (length (List.filter f l) ≤ length l)%nat.
Proof. induction l as [|x l IH]; simpl; [done|]. destruct (f x); simpl; lia. Qed.

(** *** The counter *)

Lemma counts_as_passing_iff (test : value) :
  counts_as_passing test = true ↔
  ∃ kvs v, test = JObj kvs ∧ to_dict kvs !! "passes" = Some v ∧ truthy v = true.
Proof.
  split.
  - destruct test as [| | | | | |kvs]; simpl; try discriminate.
    unfold dict_get. destruct (to_dict kvs !! "passes") as [v|] eqn:Hv; simpl; [|discriminate].
    intros Ht. by exists kvs, v.
  - intros (kvs & v & -> & Hv & Ht). simpl. unfold dict_get. by rewrite Hv.
Qed.

Lemma count_passing_tests_array dir fs l :
  fs !! path_join dir "feature_list.json" = Some (Json (JArr l)) →
  count_passing_tests dir fs =
    Ret (Z.of_nat (length (List.filter counts_as_passing l)), Z.of_nat (length l)).
Proof. intros Hfs. unfold count_passing_tests. by rewrite Hfs. Qed.

Lemma count_passing_tests_features dir fs kvs l :
  fs !! path_join dir "feature_list.json" = Some (Json (JObj kvs)) →
  to_dict kvs !! "features" = Some (JArr l) →
  count_passing_tests dir fs =
    Ret (Z.of_nat (length (List.filter counts_as_passing l)), Z.of_nat (length l)).
Proof. intros Hfs Hf. unfold count_passing_tests. rewrite Hfs. simpl. by rewrite Hf. Qed.

Lemma count_passing_tests_bounds dir fs p t :
  count_passing_tests dir fs = Ret (p, t) → 0 ≤ p ≤ t.
Proof.
  unfold count_passing_tests.
  destruct (fs !! path_join dir "feature_list.json") as [f|]; [|intros [= <- <-]; lia].
  destruct (json_load f) as [data|e] eqn:Hload; simpl.
  - set (tests := match data with JArr _ => _ | JObj _ => _ | _ => _ end).
    destruct (py_len tests) as [n|e] eqn:Hlen; simpl.
    + destruct (py_len_iter _ _ Hlen) as (items & -> & ->). simpl.
      intros [= <- <-]. pose proof (length_filter_le counts_as_passing items). lia.
    + destruct e; simpl; intros [= <- <-] || discriminate; lia.
  - destruct e; simpl; intros [= <- <-] || discriminate; lia.
Qed.

(** What the handler of [count_passing_tests] does take: a manifest that is
    missing, cannot be read or is not JSON gives [(0, 0)]. *)
Lemma count_passing_tests_degrades dir fs :
  fs !! path_join dir "feature_list.json" = None ∨
  fs !! path_join dir "feature_list.json" = Some Unreadable ∨
  fs !! path_join dir "feature_list.json" = Some NotJson →
  count_passing_tests dir fs = Ret (0, 0).
Proof. unfold count_passing_tests. by intros [-> | [-> | ->]]. Qed.

(** C2 (as amended): on a manifest that is a bare array, or an object whose
    "features" member is an array, [count_passing_tests] returns the length of
    that array as total and, as passing, the number of its entries that are
    dicts with a truthy [passes] value (so [1] and ["yes"] count); a manifest
    that is neither an array nor an object with a "features" key gives
    [(0, 0)]; and whatever pair it returns satisfies [0 <= passing <= total]. *)
Theorem count_passing_tests_truthy dir fs data :
  fs !! path_join dir "feature_list.json" = Some (Json data) →
  (∀ l, data = JArr l ∨ (∃ kvs, data = JObj kvs ∧ to_dict kvs !! "features" = Some (JArr l)) →
     count_passing_tests dir fs =
       Ret (Z.of_nat (length (List.filter counts_as_passing l)), Z.of_nat (length l))) ∧
  (isinstance_list data = false →
   (∀ kvs, data = JObj kvs → to_dict kvs !! "features" = None) →
     count_passing_tests dir fs = Ret (0, 0)) ∧
  (∀ test, counts_as_passing test = true ↔
     ∃ kvs v, test = JObj kvs ∧ to_dict kvs !! "passes" = Some v ∧ truthy v = true) ∧
  (∀ p t, count_passing_tests dir fs = Ret (p, t) → 0 ≤ p ≤ t).
Proof.
  intros Hfs. split; [|split; [|split]].
  - intros l [->|(kvs & -> & Hf)].
    + by apply count_passing_tests_array.
    + by eapply count_passing_tests_features.
  - intros Hl Hobj. unfold count_passing_tests. rewrite Hfs.
    destruct data as [| | | | | |kvs]; simpl; try done.
    by rewrite (Hobj kvs eq_refl).
  - apply counts_as_passing_iff.
  - apply count_passing_tests_bounds.
Qed.

(** *** The percentage *)

Lemma percentage_of_eq passing total :
  percentage_of passing total =
    Ret (if total >? 0 then rounded_percentage passing total else PInt 0).
Proof.
  unfold percentage_of, py_truediv.
  destruct (total >? 0) eqn:Hpos; [|done].
  destruct (total =? 0) eqn:Hz; [lia|done].
Qed.

Lemma post_webhook_cases cfg o passing previous total dir completed fs :
  post_webhook cfg o passing previous total dir completed fs =
  if is_set (WEBHOOK_URL cfg) then
    match as_number previous with
    | Ret prev =>
      (Ret (), fs,
       WebhookPost (default "" (WEBHOOK_URL cfg))
         [ {| pl_event := "test_progress";
              pl_passing := passing;
              pl_total := total;
              pl_percentage :=
                if total >? 0 then rounded_percentage passing total else PInt 0;
              pl_previous_passing := previous;
              pl_tests_completed_this_session := int_sub passing prev;
              pl_completed_tests := completed;
              pl_project := path_name dir;
              pl_timestamp := utcnow_isoformat o +:+ "Z" |} ]
       :: if webhook_up o then [] else [Print WebhookFailed])
    | Raise e => (Raise e, fs, [])
    end
  else (Ret (), fs, []).
Proof.
  unfold post_webhook. destruct (is_set (WEBHOOK_URL cfg)); [|done].
  rewrite io_bind_lift, percentage_of_eq, io_bind_lift.
  destruct (as_number previous) as [prev|e]; [|done].
  rewrite io_bind_eq. unfold perform. by destruct (webhook_up o).
Qed.

(** C8: the percentage is [round((passing / total) * 100, 1)] when
    [total > 0] and the int [0] when [total = 0]; computing it never raises,
    so no division by zero; and this is the percentage of the milestone
    message and of every payload posted to the webhook. *)
Theorem percentage_never_divides_by_zero passing total :
  (∃ pct, percentage_of passing total = Ret pct ∧
     (total > 0 → pct = PFloat (FRound (FMul (FTrueDiv passing total) 100) 1)) ∧
     (total = 0 → pct = PInt 0) ∧
     (∀ o milestone dir completed msg,
        build_message o passing total milestone dir completed = Ret msg →
        msg_percentage msg = pct) ∧
     (∀ cfg o previous dir completed fs r fs' out body pl,
        post_webhook cfg o passing previous total dir completed fs = (r, fs', out) →
        body ∈ webhook_posts out → pl ∈ body → pl_percentage pl = pct)) ∧
  (∀ o milestone dir completed,
     build_message o passing total milestone dir completed ≠ Raise ZeroDivisionError) ∧
  (∀ cfg o previous dir completed fs,
     (post_webhook cfg o passing previous total dir completed fs).1.1
       ≠ Raise ZeroDivisionError).
Proof.
  split; [|split].
  - eexists; split; [apply percentage_of_eq|]. split; [|split; [|split]].
    + intros Hpos. destruct (total >? 0) eqn:E; [done|lia].
    + by intros ->.
    + intros o milestone dir completed msg. unfold build_message.
      rewrite percentage_of_eq.
      destruct (truthy (JArr completed));
        [destruct (mapM shown_description (recent_of completed))|];
        simpl; try done; by intros [= <-].
    + intros cfg o previous dir completed fs r fs' out body pl.
      rewrite post_webhook_cases.
      destruct (is_set (WEBHOOK_URL cfg)); [|intros [= <- <- <-]; by intros ?%elem_of_nil].
      destruct (as_number previous) as [prev|e];
        [|intros [= <- <- <-]; by intros ?%elem_of_nil].
      intros [= <- <- <-]. simpl.
      assert (webhook_posts (if webhook_up o then [] else [Print WebhookFailed]) = [])
        as -> by by destruct (webhook_up o).
      intros ->%list_elem_of_singleton ->%list_elem_of_singleton. done.
  - intros o milestone dir completed. unfold build_message.
    rewrite percentage_of_eq.
    destruct (truthy (JArr completed)); [|done].
    destruct (mapM shown_description (recent_of completed)) as [lines|e] eqn:Hm; [done|].
    simpl. intros [= ->]. revert Hm. generalize (recent_of completed).
    intros l. induction l as [|test l IH]; simpl; [done|].
    destruct (shown_description test) as [line|e] eqn:Ht; simpl.
    + destruct (mapM shown_description l); simpl; [done|]. intros [= ->]. by apply IH.
    + intros [= ->]. unfold shown_description in Ht.
      destruct (py_len test) as [n|e] eqn:Hn; simpl in Ht.
      * destruct (n >? 60); [|done]. by destruct test.
      * injection Ht as ->. by destruct test.
  - intros cfg o previous dir completed fs. rewrite post_webhook_cases.
    destruct (is_set (WEBHOOK_URL cfg)); [|done].
    destruct (as_number previous) as [prev|e] eqn:Hn; [done|]. simpl.
    intros [= ->]. by destruct previous.
Qed.

(** *** The milestone message *)

Lemma shown_description_str s : shown_description (JStr s) = Ret (truncated s).
Proof.
  unfold shown_description, truncated. simpl.
  destruct (60 <? String.length s)%nat eqn:Hlen.
  - apply Nat.ltb_lt in Hlen. by destruct (Z.of_nat (String.length s) >? 60) eqn:E; [|lia].
  - apply Nat.ltb_ge in Hlen. by destruct (Z.of_nat (String.length s) >? 60) eqn:E; [lia|].
Qed.

Lemma mapM_shown_description (descs : list string) :
  mapM shown_description (JStr <$> descs) = Ret (truncated <$> descs).
Proof.
  induction descs as [|d descs IH]; [done|].
  rewrite !fmap_cons. cbn [mapM].
  by rewrite shown_description_str, IH.
Qed.

Lemma recent_of_last_five {A} (f : A → value) (l : list A) :
  recent_of (f <$> l) = f <$> drop (length l - 5) l.
Proof.
  unfold recent_of. rewrite length_fmap.
  destruct (5 <? length l)%nat eqn:Hlen.
  - by rewrite fmap_drop.
  - apply Nat.ltb_ge in Hlen. by replace (length l - 5)%nat with 0%nat by lia.
Qed.

Lemma build_message_text o passing total milestone dir (descs : list string) :
  build_message o passing total milestone dir (JStr <$> descs) =
    Ret {| msg_project := path_name dir;
           msg_passing := passing;
           msg_total := total;
           msg_percentage :=
             if total >? 0 then rounded_percentage passing total else PInt 0;
           msg_milestone := milestone;
           msg_recent := truncated <$> drop (length descs - 5) descs;
           msg_time := now o |}.
Proof.
  unfold build_message. rewrite percentage_of_eq.
  rewrite recent_of_last_five, mapM_shown_description.
  by destruct descs.
Qed.

Lemma check_telegram_milestone_off cfg o passing previous total dir completed fs :
  is_set (TELEGRAM_BOT_TOKEN cfg) = false ∨ is_set (TELEGRAM_CHAT_ID cfg) = false →
  check_telegram_milestone cfg o passing previous total dir completed fs = (Ret (), fs, []).
Proof.
  intros Hoff. unfold check_telegram_milestone.
  by destruct Hoff as [-> | ->]; [|rewrite orb_true_r].
Qed.

Lemma send_telegram_notification_on cfg o msg fs :
  is_set (TELEGRAM_BOT_TOKEN cfg) = true →
  is_set (TELEGRAM_CHAT_ID cfg) = true →
  send_telegram_notification cfg o msg fs =
    (Ret (telegram_up o), fs,
     TelegramPost (default "" (TELEGRAM_BOT_TOKEN cfg))
                  (default "" (TELEGRAM_CHAT_ID cfg)) msg
     :: (if telegram_up o then [] else [Print TelegramFailed])).
Proof.
  intros Htok Hchat. unfold send_telegram_notification. rewrite Htok, Hchat.
  change (negb true || negb true) with false. cbv iota.
  rewrite io_bind_eq. unfold perform. by destruct (telegram_up o).
Qed.

Lemma check_telegram_milestone_text cfg o passing previous total dir descs fs :
  is_set (TELEGRAM_BOT_TOKEN cfg) = true →
  is_set (TELEGRAM_CHAT_ID cfg) = true →
  ∃ msg,
    msg_milestone msg = (passing `div` 10) * 10 ∧
    msg_recent msg = truncated <$> drop (length descs - 5) descs ∧
    check_telegram_milestone cfg o passing (JInt previous) total dir (JStr <$> descs) fs =
      (Ret (), fs,
       if (previous `div` 10) * 10 <? (passing `div` 10) * 10
       then TelegramPost (default "" (TELEGRAM_BOT_TOKEN cfg))
                         (default "" (TELEGRAM_CHAT_ID cfg)) msg
            :: (if telegram_up o then [] else [Print TelegramFailed])
       else []).
Proof.
  intros Htok Hchat. eexists. split; [|split]; last first.
  - unfold check_telegram_milestone. rewrite Htok, Hchat.
    change (negb true || negb true) with false. cbv iota.
    rewrite io_bind_lift. simpl as_number. cbv iota.
    unfold TELEGRAM_MILESTONE_INTERVAL.
    change (int_gt (passing `div` 10 * 10) (num_mul (num_floordiv (NInt previous) 10) 10))
      with (previous `div` 10 * 10 <? passing `div` 10 * 10).
    destruct (previous `div` 10 * 10 <? passing `div` 10 * 10); [|done].
    rewrite io_bind_lift, build_message_text.
    rewrite io_bind_eq, send_telegram_notification_on by done.
    cbn. rewrite app_nil_r. reflexivity.
  - done.
  - done.
Qed.

(** C4: with the chat sink configured, [check_telegram_milestone] makes one
    request to the bot, announcing the milestone [floor(current/10)*10],
    exactly when [floor(current/10)*10 > floor(previous/10)*10], and none
    otherwise: from 9 to 10 it announces 10, from 10 to 19 nothing, from 19 to
    20 it announces 20.  With the sink not configured it does nothing at
    all. *)
Theorem check_telegram_milestone_trigger cfg o total dir (descs : list string) fs :
  let run passing previous :=
    check_telegram_milestone cfg o passing (JInt previous) total dir (JStr <$> descs) fs in
  let announced passing previous :=
    msg_milestone <$> telegram_posts (run passing previous).2 in
  (is_set (TELEGRAM_BOT_TOKEN cfg) = true → is_set (TELEGRAM_CHAT_ID cfg) = true →
     (∀ passing previous,
        (run passing previous).1 = (Ret (), fs) ∧
        announced passing previous =
          if decide ((passing `div` 10) * 10 > (previous `div` 10) * 10)
          then [(passing `div` 10) * 10] else []) ∧
     announced 10 9 = [10] ∧ announced 19 10 = [] ∧ announced 20 19 = [20]) ∧
  (is_set (TELEGRAM_BOT_TOKEN cfg) = false ∨ is_set (TELEGRAM_CHAT_ID cfg) = false →
     ∀ passing previous completed,
       check_telegram_milestone cfg o passing previous total dir completed fs =
         (Ret (), fs, [])).
Proof.
  intros run announced. split.
  - intros Htok Hchat.
    assert (∀ passing previous,
      (run passing previous).1 = (Ret (), fs) ∧
      announced passing previous =
        if decide ((passing `div` 10) * 10 > (previous `div` 10) * 10)
        then [(passing `div` 10) * 10] else []) as Hgen.
    { intros passing previous. unfold announced, run.
      destruct (check_telegram_milestone_text cfg o passing previous total dir descs fs
                  Htok Hchat) as (msg & Hm & _ & ->).
      split; [done|]. simpl.
      destruct (previous `div` 10 * 10 <? passing `div` 10 * 10) eqn:Hlt.
      - apply Z.ltb_lt in Hlt. rewrite decide_True by lia.
        simpl. rewrite Hm. by destruct (telegram_up o).
      - apply Z.ltb_ge in Hlt. by rewrite decide_False by lia. }
    split; [done|].
    split; [|split].
    + by rewrite (proj2 (Hgen 10 9)).
    + by rewrite (proj2 (Hgen 19 10)).
    + by rewrite (proj2 (Hgen 20 19)).
  - intros Hoff passing previous completed. by apply check_telegram_milestone_off.
Qed.

(** C9: the message lists the last five of the completed descriptions (all
    of them when there are five or fewer), in the order in which they were
    found; a description of 60 characters or fewer is shown as it is and one
    of 61 characters (or more) as its first 60 characters followed by "...";
    and the scan puts the category in brackets before the description when
    the category is not empty. *)
Theorem milestone_message_recent o passing total milestone dir (descs : list string) :
  (∃ msg older,
     build_message o passing total milestone dir (JStr <$> descs) = Ret msg ∧
     descs = older ++ drop (length descs - 5) descs ∧
     msg_recent msg = truncated <$> drop (length descs - 5) descs ∧
     (length (msg_recent msg) ≤ 5)%nat) ∧
  (∀ s, (String.length s ≤ 60)%nat → truncated s = s) ∧
  (∀ s, (String.length s = 61)%nat → truncated s = str_take 60 s +:+ "...") ∧
  (∀ previous_passing_tests i kvs acc indices category desc,
     truthy (dict_get kvs "passes" (JBool false)) = true →
     int_in (Z.of_nat i) previous_passing_tests = false →
     dict_get kvs "category" (JStr "") = JStr category →
     dict_get kvs "description" (JStr ("Test #" +:+ pretty (i + 1)%nat)) = JStr desc →
     note_newly_passing previous_passing_tests i (JObj kvs) (acc, indices) =
       Ret (acc ++ [JStr (if decide (category = "") then desc
                          else "[" +:+ category +:+ "] " +:+ desc)],
            indices ++ [i])).
Proof.
  split; [|split; [|split]].
  - eexists _, (take (length descs - 5) descs).
    split; [apply build_message_text|]. simpl.
    split; [by rewrite take_drop|]. split; [done|].
    rewrite length_fmap, length_drop. lia.
  - intros s Hlen. unfold truncated.
    by destruct (60 <? String.length s)%nat eqn:E; [apply Nat.ltb_lt in E; lia|].
  - intros s Hlen. unfold truncated. by rewrite Hlen.
  - intros prev i kvs acc indices category desc Hpass Hnew Hcat Hdesc.
    unfold note_newly_passing. rewrite Hpass, Hnew, Hcat, Hdesc.
    by destruct category as [|c category]; [|rewrite decide_False].
Qed.

(** *** Reading the cache and the manifest *)

Lemma read_previous_eq cache_file fs :
  read_previous cache_file fs = (Ret (cached_progress cache_file fs), fs, []).
Proof.
  unfold read_previous, cached_progress, path_exists, try_except, read_json.
  rewrite io_bind_eq.
  destruct (fs !! cache_file) as [f|] eqn:Hf.
  - rewrite bool_decide_eq_true_2 by done. cbv iota beta zeta.
    rewrite io_bind_eq, Hf.
    destruct (json_load f) as [cache_data|e]; [|done]. simpl.
    rewrite io_bind_lift.
    destruct (py_get cache_data "count" (JInt 0)) as [previous|e]; [|done]. simpl.
    rewrite io_bind_lift.
    destruct (py_get cache_data "passing_indices" (JArr [])) as [indices|e]; [|done]. simpl.
    rewrite io_bind_lift.
    by destruct (py_set indices) as [previous_passing_tests|e].
  - rewrite bool_decide_eq_false_2; [done|]. by intros [? ?].
Qed.

Lemma scan_eq {St : Type} (body : nat → value → St → outcome St) tests_file init fs :
  scan body tests_file init fs = (Ret (scanned body tests_file init fs), fs, []).
Proof. unfold scan, scanned. by destruct (fs !! tests_file). Qed.

(** Both scans collect the same indices. *)
Lemma for_enumerate_indices previous_passing_tests i tests completed indices :
  (for_enumerate (note_newly_passing previous_passing_tests) i tests (completed, indices)).2 =
  for_enumerate note_passing i tests indices.
Proof.
  revert i completed indices.
  induction tests as [|test tests IH]; intros i completed indices; [done|].
  destruct test as [| | | | | |kvs]; try done. simpl.
  destruct (truthy (dict_get kvs "passes" (JBool false))); simpl; [|apply IH].
  destruct (int_in (Z.of_nat i) previous_passing_tests); simpl; [apply IH|].
  destruct (truthy (dict_get kvs "category" (JStr ""))); simpl; apply IH.
Qed.

Lemma scanned_indices previous_passing_tests tests_file fs :
  (scanned (note_newly_passing previous_passing_tests) tests_file ([], []) fs).2 =
  scanned note_passing tests_file [] fs.
Proof.
  unfold scanned. destruct (fs !! tests_file); [|done]. apply for_enumerate_indices.
Qed.


(** *** The milestone evaluator *)

Lemma build_message_raise o o' passing total milestone dir completed e :
  build_message o passing total milestone dir completed = Raise e →
  build_message o' passing total milestone dir completed = Raise e.
Proof.
  unfold build_message. rewrite percentage_of_eq.
  by destruct (truthy (JArr completed));
    [destruct (mapM shown_description (recent_of completed))|].
Qed.

Lemma check_telegram_milestone_cases cfg o passing previous total dir completed fs :
  check_telegram_milestone cfg o passing previous total dir completed fs =
  if negb (is_set (TELEGRAM_BOT_TOKEN cfg)) || negb (is_set (TELEGRAM_CHAT_ID cfg))
  then (Ret (), fs, [])
  else
    match as_number previous with
    | Raise e => (Raise e, fs, [])
    | Ret prev =>
      if int_gt ((passing `div` 10) * 10) (num_mul (num_floordiv prev 10) 10) then
        match build_message o passing total ((passing `div` 10) * 10) dir completed with
        | Raise e => (Raise e, fs, [])
        | Ret msg =>
          (Ret (), fs,
           TelegramPost (default "" (TELEGRAM_BOT_TOKEN cfg))
                        (default "" (TELEGRAM_CHAT_ID cfg)) msg
           :: (if telegram_up o then [] else [Print TelegramFailed]))
        end
      else (Ret (), fs, [])
    end.
Proof.
  unfold check_telegram_milestone.
  destruct (is_set (TELEGRAM_BOT_TOKEN cfg)) eqn:Htok; [|done].
  destruct (is_set (TELEGRAM_CHAT_ID cfg)) eqn:Hchat; [|done].
  change (negb true || negb true) with false. cbv iota.
  rewrite io_bind_lift. destruct (as_number previous) as [prev|e]; [|done].
  unfold TELEGRAM_MILESTONE_INTERVAL.
  destruct (int_gt _ _); [|done].
  rewrite io_bind_lift.
  destruct (build_message _ _ _ _ _ _) as [msg|e]; [|done].
  rewrite io_bind_eq, send_telegram_notification_on by done.
  cbn. by rewrite app_nil_r.
Qed.

(** *** Manifests whose descriptions are text *)

Lemma Forall_is_str (l : list value) : Forall is_str l → ∃ descs, l = JStr <$> descs.
Proof.
  induction 1 as [|v l [d ->] _ [descs ->]]; [by exists []|]. by exists (d :: descs).
Qed.

Lemma for_enumerate_text previous_passing_tests i tests completed indices :
  Forall record_text tests →
  Forall is_str completed →
  Forall is_str
    (for_enumerate (note_newly_passing previous_passing_tests) i tests
       (completed, indices)).1.
Proof.
  intros Htext. revert i completed indices.
  induction Htext as [|test tests Htest _ IH]; intros i completed indices Hstr; [done|].
  destruct test as [| | | | | |kvs]; try done. simpl.
  destruct (truthy (dict_get kvs "passes" (JBool false))); simpl; [|by apply IH].
  destruct (int_in (Z.of_nat i) previous_passing_tests); simpl; [by apply IH|].
  destruct (truthy (dict_get kvs "category" (JStr ""))); simpl.
  - apply IH, Forall_app. split; [done|]. repeat constructor. by eexists.
  - apply IH, Forall_app. split; [done|]. repeat constructor.
    unfold dict_get. simpl in Htest.
    destruct (to_dict kvs !! "description") as [[]|]; try done; by eexists.
Qed.

Lemma enumerated_text tests_file fs f :
  descriptions_are_text tests_file fs →
  fs !! tests_file = Some f →
  Forall record_text (enumerated (json_load f)).
Proof.
  intros Htext Hf. destruct f as [| | |j]; try by constructor.
  destruct j; unfold enumerated; simpl; try by constructor.
  - by apply Forall_fmap, Forall_true.
  - by apply Htext.
  - by apply Forall_fmap, Forall_true.
Qed.

Lemma scanned_text previous_passing_tests tests_file fs :
  descriptions_are_text tests_file fs →
  ∃ descs,
    (scanned (note_newly_passing previous_passing_tests) tests_file ([], []) fs).1
      = JStr <$> descs.
Proof.
  intros Htext. unfold scanned.
  destruct (fs !! tests_file) as [f|] eqn:Hf; [|by exists []].
  apply Forall_is_str, for_enumerate_text; [|done]. by eapply enumerated_text.
Qed.

Lemma check_telegram_milestone_returns cfg o passing previous total dir descs fs :
  ∃ out,
    check_telegram_milestone cfg o passing (JInt previous) total dir (JStr <$> descs) fs
      = (Ret (), fs, out) ∧
    webhook_posts out = [].
Proof.
  rewrite check_telegram_milestone_cases, build_message_text. simpl as_number. cbv iota.
  destruct (_ || _); [by eexists|].
  destruct (int_gt _ _); [|by eexists].
  eexists; split; [done|]. by destruct (telegram_up o).
Qed.

(** *** The notifier and the cache writer *)

Lemma send_progress_webhook_eq cfg o passing total dir fs :
  send_progress_webhook cfg o passing total dir fs =
  let cache_file := path_join dir PROGRESS_CACHE_FILE in
  let tests_file := path_join dir "feature_list.json" in
  let previous := (cached_progress cache_file fs).1 in
  let previous_passing_tests := (cached_progress cache_file fs).2 in
  match as_number previous with
  | Raise e => (Raise e, fs, [])
  | Ret prev =>
    if int_gt passing prev then
      let found := scanned (note_newly_passing previous_passing_tests) tests_file ([], []) fs in
      match check_telegram_milestone cfg o passing previous total dir found.1 fs with
      | (Raise e, fs1, out1) => (Raise e, fs1, out1)
      | (Ret _, fs1, out1) =>
        match post_webhook cfg o passing previous total dir found.1 fs1 with
        | (Raise e, fs2, out2) => (Raise e, fs2, out1 ++ out2)
        | (Ret _, fs2, out2) =>
          (Ret (), <[cache_file := Json (cache_record passing found.2)]> fs2, out1 ++ out2)
        end
      end
    else if bool_decide (is_Some (fs !! cache_file)) then (Ret (), fs, [])
    else (Ret (),
          <[cache_file := Json (cache_record passing (scanned note_passing tests_file [] fs))]> fs,
          [])
  end.
Proof.
  unfold send_progress_webhook. cbv zeta.
  rewrite io_bind_eq, read_previous_eq.
  destruct (cached_progress _ fs) as [previous previous_passing_tests]. simpl fst. simpl snd.
  cbv iota beta. rewrite io_bind_lift.
  destruct (as_number previous) as [prev|e]; [|done].
  destruct (int_gt passing prev).
  - rewrite io_bind_eq, scan_eq.
    destruct (scanned _ _ _ fs) as [completed indices]. simpl fst. simpl snd.
    rewrite io_bind_eq.
    destruct (check_telegram_milestone _ _ _ _ _ _ _ fs) as [[[[]|e] fs1] out1]; [|done].
    rewrite io_bind_eq.
    destruct (post_webhook _ _ _ _ _ _ _ fs1) as [[[[]|e] fs2] out2]; [|done].
    unfold write_json. by rewrite !app_nil_r.
  - rewrite io_bind_eq. unfold path_exists.
    destruct (bool_decide _); [done|].
    cbn [negb]. rewrite io_bind_eq, scan_eq. done.
Qed.

Lemma webhook_posts_app out1 out2 :
  webhook_posts (out1 ++ out2) = webhook_posts out1 ++ webhook_posts out2.
Proof. apply omap_app. Qed.

(** C5: with the webhook configured, a cached count that is an int and a
    manifest whose descriptions are text, [send_progress_webhook] posts to
    the webhook exactly when the passing count is above the cached count,
    milestone or not; the body is a list of one payload with the event tag,
    the passing and total counts, the percentage, the cached count, the
    difference, the newly completed descriptions, the project name and the
    UTC time in ISO format followed by "Z". *)
Theorem webhook_posted_on_increase cfg o passing total dir fs previous previous_passing_tests :
  is_set (WEBHOOK_URL cfg) = true →
  read_previous (path_join dir PROGRESS_CACHE_FILE) fs
    = (Ret (JInt previous, previous_passing_tests), fs, []) →
  descriptions_are_text (path_join dir "feature_list.json") fs →
  ∃ percentage newly_completed,
    percentage_of passing total = Ret percentage ∧
    scan (note_newly_passing previous_passing_tests)
         (path_join dir "feature_list.json") ([], []) fs
      = (Ret newly_completed, fs, []) ∧
    (send_progress_webhook cfg o passing total dir fs).1.1 = Ret () ∧
    webhook_posts (send_progress_webhook cfg o passing total dir fs).2 =
      if decide (passing > previous) then
        [[ {| pl_event := "test_progress";
              pl_passing := passing;
              pl_total := total;
              pl_percentage := percentage;
              pl_previous_passing := JInt previous;
              pl_tests_completed_this_session := NInt (passing - previous);
              pl_completed_tests := newly_completed.1;
              pl_project := path_name dir;
              pl_timestamp := utcnow_isoformat o +:+ "Z" |} ]]
      else [].
Proof.
  intros Hurl Hprev Htext.
  rewrite read_previous_eq in Hprev. injection Hprev as Hprev.
  eexists _, _. split; [apply percentage_of_eq|]. split; [apply scan_eq|].
  rewrite send_progress_webhook_eq. cbv zeta. rewrite Hprev. simpl fst. simpl snd.
  simpl as_number. cbv iota. simpl int_gt.
  destruct (previous <? passing) eqn:Hlt.
  - apply Z.ltb_lt in Hlt. rewrite decide_True by lia.
    destruct (scanned_text previous_passing_tests _ fs Htext) as [descs Hdescs].
    rewrite Hdescs.
    destruct (check_telegram_milestone_returns cfg o passing previous total dir descs fs)
      as (out1 & -> & Hout1).
    rewrite post_webhook_cases, Hurl. simpl as_number. cbv iota.
    split; [done|]. simpl snd.
    rewrite webhook_posts_app, Hout1. simpl.
    by destruct (webhook_up o).
  - apply Z.ltb_ge in Hlt. rewrite decide_False by lia.
    by destruct (bool_decide _).
Qed.

(** C6: with a cached count that is an int and a manifest whose descriptions
    are text, [send_progress_webhook] writes the cache, with the passing count
    and the indices the scan found, exactly when the passing count is above
    the cached count or there is no cache file; otherwise every file, the
    cache among them, is as before. *)
Theorem cache_written_on_increase_or_first_run cfg o passing total dir fs
    previous previous_passing_tests :
  read_previous (path_join dir PROGRESS_CACHE_FILE) fs
    = (Ret (JInt previous, previous_passing_tests), fs, []) →
  descriptions_are_text (path_join dir "feature_list.json") fs →
  ∃ current_passing_indices,
    scan note_passing (path_join dir "feature_list.json") [] fs
      = (Ret current_passing_indices, fs, []) ∧
    (send_progress_webhook cfg o passing total dir fs).1 =
      (Ret (),
       if decide (passing > previous ∨ fs !! path_join dir PROGRESS_CACHE_FILE = None)
       then <[path_join dir PROGRESS_CACHE_FILE :=
                Json (cache_record passing current_passing_indices)]> fs
       else fs).
Proof.
  intros Hprev Htext.
  rewrite read_previous_eq in Hprev. injection Hprev as Hprev.
  eexists. split; [apply scan_eq|].
  rewrite send_progress_webhook_eq. cbv zeta. rewrite Hprev. simpl fst. simpl snd.
  simpl as_number. cbv iota. simpl int_gt.
  destruct (previous <? passing) eqn:Hlt.
  - apply Z.ltb_lt in Hlt. rewrite decide_True by (left; lia).
    destruct (scanned_text previous_passing_tests _ fs Htext) as [descs Hdescs].
    rewrite Hdescs.
    destruct (check_telegram_milestone_returns cfg o passing previous total dir descs fs)
      as (out1 & -> & Hout1).
    rewrite post_webhook_cases. simpl as_number. cbv iota.
    rewrite scanned_indices.
    by destruct (is_set (WEBHOOK_URL cfg)).
  - apply Z.ltb_ge in Hlt.
    destruct (fs !! path_join dir PROGRESS_CACHE_FILE) as [f|] eqn:Hf.
    + rewrite bool_decide_eq_true_2 by done.
      rewrite decide_False; [done|]. intros [?|?]; [lia|done].
    + rewrite bool_decide_eq_false_2 by (by intros [? ?]).
      by rewrite decide_True by by right.
Qed.

(** *** The cached record on a bare array of records *)

Lemma for_enumerate_note_passing_length i tests indices :
  Forall (λ test, isinstance_dict test = true) tests →
  length (for_enumerate note_passing i tests indices) =
    (length indices + length (List.filter counts_as_passing tests))%nat.
Proof.
  intros Hrec. revert i indices.
  induction Hrec as [|test tests Htest _ IH]; intros i indices; simpl; [lia|].
  destruct test as [| | | | | |kvs]; try done. simpl.
  destruct (truthy (dict_get kvs "passes" (JBool false))); simpl; rewrite IH; [|done].
  rewrite length_app. simpl. lia.
Qed.

Lemma for_enumerate_note_passing_bound n i tests indices :
  (i + length tests ≤ n)%nat →
  Forall (λ k, (k < n)%nat) indices →
  Forall (λ k, (k < n)%nat) (for_enumerate note_passing i tests indices).
Proof.
  revert i indices. induction tests as [|test tests IH]; intros i indices Hn Hb; [done|].
  simpl in *. destruct test as [| | | | | |kvs]; simpl; try done.
  destruct (truthy (dict_get kvs "passes" (JBool false))); simpl;
    (apply IH; [lia|]); [|done].
  apply Forall_app. split; [done|]. repeat constructor. lia.
Qed.

(** X20: where the invariant of the cached record does hold: on a manifest
    that is a bare array of dicts, the indices found are as many as the
    counter's passing count and lie below its total. *)
Lemma cache_record_invariant_on_records dir fs tests :
  fs !! path_join dir "feature_list.json" = Some (Json (JArr tests)) →
  Forall (λ test, isinstance_dict test = true) tests →
  ∃ passing total,
    count_passing_tests dir fs = Ret (passing, total) ∧
    Z.of_nat (length (scanned note_passing (path_join dir "feature_list.json") [] fs)) = passing ∧
    Forall (λ i, 0 ≤ Z.of_nat i < total)
      (scanned note_passing (path_join dir "feature_list.json") [] fs).
Proof.
  intros Hfs Hrec. eexists _, _. split; [by apply count_passing_tests_array|].
  unfold scanned. rewrite Hfs. unfold enumerated. simpl. split.
  - by rewrite for_enumerate_note_passing_length.
  - eapply Forall_impl;
      [by apply (for_enumerate_note_passing_bound (length tests) 0 tests [])|].
    simpl. intros k Hk. lia.
Qed.

(** *** Two runs in a row *)

Lemma tests_file_ne_cache_file dir :
  path_join dir PROGRESS_CACHE_FILE ≠ path_join dir "feature_list.json".
Proof. unfold path_join. by intros [=]%app_inv_head. Qed.

Lemma forallb_hashable_ints (indices : list nat) :
  forallb hashable ((λ i, JInt (Z.of_nat i) : value) <$> indices) = true.
Proof. by induction indices. Qed.

Lemma cached_progress_written cache_file passing indices fs :
  cached_progress cache_file (<[cache_file := Json (cache_record passing indices)]> fs) =
    (JInt passing, (λ i, JInt (Z.of_nat i)) <$> indices).
Proof.
  unfold cached_progress. rewrite lookup_insert_eq. simpl.
  unfold dict_get, to_dict. simpl.
  rewrite lookup_insert_ne, lookup_insert_eq by done. simpl.
  rewrite lookup_insert_eq. simpl.
  unfold py_set. simpl. by rewrite forallb_hashable_ints.
Qed.

(** Once the cache holds the current count, a run changes and sends
    nothing. *)
Lemma send_progress_webhook_settled cfg o passing total dir indices fs :
  let fs1 := <[path_join dir PROGRESS_CACHE_FILE := Json (cache_record passing indices)]> fs in
  send_progress_webhook cfg o passing total dir fs1 = (Ret (), fs1, []).
Proof.
  intros fs1. rewrite send_progress_webhook_eq. cbv zeta. unfold fs1.
  rewrite cached_progress_written. simpl.
  rewrite Z.ltb_irrefl, lookup_insert_eq.
  by rewrite bool_decide_eq_true_2.
Qed.

Lemma send_progress_webhook_twice cfg o1 o2 passing total dir fs :
  let first := send_progress_webhook cfg o1 passing total dir fs in
  let second := send_progress_webhook cfg o2 passing total dir first.1.2 in
  first.1.2 !! path_join dir "feature_list.json" = fs !! path_join dir "feature_list.json" ∧
  second.1.2 = first.1.2 ∧ second.2 = [].
Proof.
  cbv zeta. rewrite (send_progress_webhook_eq cfg o1). cbv zeta.
  pose proof (tests_file_ne_cache_file dir) as Hne.
  destruct (as_number _) as [prev|e] eqn:Hprev.
  2:{ simpl. split; [done|]. rewrite send_progress_webhook_eq. cbv zeta. by rewrite Hprev. }
  destruct (int_gt passing prev) eqn:Hgt.
  - rewrite (check_telegram_milestone_cases cfg o1).
    assert (∀ e,
      check_telegram_milestone cfg o1 passing (cached_progress (path_join dir PROGRESS_CACHE_FILE) fs).1
        total dir
        (scanned (note_newly_passing (cached_progress (path_join dir PROGRESS_CACHE_FILE) fs).2)
           (path_join dir "feature_list.json") ([], []) fs).1 fs = (Raise e, fs, []) →
      send_progress_webhook cfg o2 passing total dir fs = (Raise e, fs, [])) as Hraise.
    { intros e. rewrite send_progress_webhook_eq. cbv zeta. rewrite Hprev, Hgt.
      rewrite !check_telegram_milestone_cases, Hprev.
      destruct (_ || _); [done|].
      destruct (int_gt (_ * 10) _); [|done].
      destruct (build_message o1 _ _ _ _ _) as [msg|e'] eqn:Hmsg; [done|].
      intros [= ->]. by rewrite (build_message_raise o1 o2 _ _ _ _ _ _ Hmsg). }
    rewrite (check_telegram_milestone_cases cfg o1) in Hraise.
    rewrite Hprev in *.
    assert (∀ out1,
      let first :=
        match post_webhook cfg o1 passing (cached_progress (path_join dir PROGRESS_CACHE_FILE) fs).1
                total dir
                (scanned (note_newly_passing (cached_progress (path_join dir PROGRESS_CACHE_FILE) fs).2)
                   (path_join dir "feature_list.json") ([], []) fs).1 fs with
        | (Raise e, fs2, out2) => (Raise e, fs2, out1 ++ out2)
        | (Ret _, fs2, out2) =>
          (Ret (),
           <[path_join dir PROGRESS_CACHE_FILE :=
               Json (cache_record passing
                 (scanned (note_newly_passing (cached_progress (path_join dir PROGRESS_CACHE_FILE) fs).2)
                    (path_join dir "feature_list.json") ([], []) fs).2)]> fs2,
           out1 ++ out2)
        end in
      first.1.2 !! path_join dir "feature_list.json" = fs !! path_join dir "feature_list.json" ∧
      (send_progress_webhook cfg o2 passing total dir first.1.2).1.2 = first.1.2 ∧
      (send_progress_webhook cfg o2 passing total dir first.1.2).2 = []) as Hret.
    { intros out1. rewrite post_webhook_cases, Hprev.
      destruct (is_set (WEBHOOK_URL cfg)); simpl;
        (split; [by rewrite lookup_insert_ne|]);
        by rewrite send_progress_webhook_settled. }
    destruct (_ || _); [apply Hret|].
    destruct (int_gt (_ * 10) _); [|apply Hret].
    destruct (build_message o1 _ _ _ _ _) as [msg|e'] eqn:Hmsg; [apply Hret|].
    simpl. by rewrite (Hraise e' eq_refl).
  - destruct (bool_decide _) eqn:Hex; simpl.
    + split; [done|]. rewrite send_progress_webhook_eq. cbv zeta.
      by rewrite Hprev, Hgt, Hex.
    + split; [by rewrite lookup_insert_ne|].
      by rewrite send_progress_webhook_settled.
Qed.

(** *** The summary *)

(** C10: when the counter yields a total of zero, [print_progress_summary]
    prints the placeholder line and does nothing else: the files (the cache
    among them) are as before and no request is made. *)
Theorem print_progress_summary_placeholder cfg o dir fs p :
  count_passing_tests dir fs = Ret (p, 0) →
  print_progress_summary cfg o dir fs = (Ret (), fs, [Print NotYetCreated]).
Proof.
  intros Hcount. unfold print_progress_summary.
  erewrite io_bind_ret; [|by rewrite Hcount]. reflexivity.
Qed.

Lemma count_passing_tests_ext dir fs fs' :
  fs' !! path_join dir "feature_list.json" = fs !! path_join dir "feature_list.json" →
  count_passing_tests dir fs' = count_passing_tests dir fs.
Proof. intros Hsame. unfold count_passing_tests. by rewrite Hsame. Qed.

Lemma print_progress_summary_eq cfg o dir fs :
  print_progress_summary cfg o dir fs =
  match count_passing_tests dir fs with
  | Raise e => (Raise e, fs, [])
  | Ret (passing, total) =>
    if total >? 0 then
      let sent := send_progress_webhook cfg o passing total dir fs in
      (sent.1.1, sent.1.2,
       Print (ProgressLine passing total (FMul (FTrueDiv passing total) 100)) :: sent.2)
    else (Ret (), fs, [Print NotYetCreated])
  end.
Proof.
  unfold print_progress_summary. rewrite io_bind_eq.
  destruct (count_passing_tests dir fs) as [[passing total]|e]; [|done].
  destruct (total >? 0) eqn:Hpos; [|done].
  rewrite io_bind_lift. unfold py_truediv.
  destruct (total =? 0) eqn:Hz; [lia|].
  rewrite io_bind_eq. unfold perform.
  by destruct (send_progress_webhook cfg o passing total dir fs) as [[r fs1] out1].
Qed.

(** C7: a second run of [print_progress_summary] right after a first one
    leaves every file as the first run left it, the cache among them, and
    makes no request to the bot or to the webhook.  This holds for every
    state of the project directory, hence also when the cache file already
    exists. *)
Theorem print_progress_summary_idempotent cfg o1 o2 dir fs :
  let first := print_progress_summary cfg o1 dir fs in
  let second := print_progress_summary cfg o2 dir first.1.2 in
  second.1.2 = first.1.2 ∧
  telegram_posts second.2 = [] ∧
  webhook_posts second.2 = [].
Proof.
  cbv zeta. rewrite (print_progress_summary_eq cfg o1).
  destruct (count_passing_tests dir fs) as [[passing total]|e] eqn:Hcount.
  - destruct (total >? 0) eqn:Hpos.
    + cbv zeta. simpl.
      destruct (send_progress_webhook_twice cfg o1 o2 passing total dir fs)
        as (Hsame & Hfiles & Hout).
      rewrite print_progress_summary_eq, (count_passing_tests_ext _ _ _ Hsame), Hcount, Hpos.
      cbv zeta. simpl. by rewrite Hfiles, Hout.
    + simpl. by rewrite print_progress_summary_eq, Hcount, Hpos.
  - simpl. by rewrite print_progress_summary_eq, Hcount.
Qed.

End Properties.

(** ** Further properties of the code *)

Section Further.
Context {RT : PyRuntime}.

(** *** The chat sink *)


(** *** The bullet lines *)

Lemma length_str_take n s : String.length (str_take n s) = (n `min` String.length s)%nat.
Proof.
  revert s. induction n as [|n IH]; intros [|c s]; simpl; try done. by rewrite IH.
Qed.

Lemma length_string_app s t :
  String.length (s +:+ t) = (String.length s + String.length t)%nat.
Proof. induction s as [|c s IH]; simpl; [done|]. by rewrite IH. Qed.

Lemma str_take_app_le n s t :
  (n ≤ String.length s)%nat → str_take n (s +:+ t) = str_take n s.
Proof.
  revert s. induction n as [|n IH]; intros s Hn; [done|].
  destruct s as [|c s]; simpl in *; [lia|].
  rewrite IH; [done|lia].
Qed.

Lemma str_take_take n s : str_take n (str_take n s) = str_take n s.
Proof. revert s. induction n as [|n IH]; intros [|c s]; simpl; try done. by rewrite IH. Qed.

(** X2: for a description that is a str, the bullet line is never longer
    than 63 characters, keeps the first 60 characters of the description, and
    is the description itself when that has 60 characters or fewer. *)
Theorem shown_description_bounded (s : string) :
  ∃ line,
    shown_description (JStr s) = Ret line ∧
    (String.length line ≤ 63)%nat ∧
    str_take 60 line = str_take 60 s ∧
    ((String.length s ≤ 60)%nat → line = s) ∧
    ((60 < String.length s)%nat → String.length line = 63%nat).
Proof.
  exists (truncated s). split; [apply shown_description_str|].
  unfold truncated. destruct (60 <? String.length s)%nat eqn:Hlen.
  - apply Nat.ltb_lt in Hlen.
    assert (String.length (str_take 60 s +:+ "...") = 63%nat) as Hl.
    { rewrite length_string_app, length_str_take.
      change (String.length "...") with 3%nat. lia. }
    repeat split; try lia.
    rewrite str_take_app_le, str_take_take; [done|]. rewrite length_str_take. lia.
  - apply Nat.ltb_ge in Hlen. repeat split; try done; lia.
Qed.

Lemma shown_description_raise v e : shown_description v = Raise e → e = TypeError.
Proof.
  unfold shown_description.
  destruct (py_len v) as [n|e'] eqn:Hn; cbn [mbind outcome_bind]; unfold mret, outcome_ret.
  - destruct (n >? 60); [|done]. destruct v; try done; by intros [= <-].
  - intros [= <-]. destruct v; simpl in Hn; by try injection Hn as <-.
Qed.

(** X3: a completed entry makes the message fail exactly when it has no
    length (null, a boolean, a number) or is a list or an object of more than
    60 items; the exception is then [TypeError]. *)
Theorem shown_description_raises_iff (v : value) :
  (∃ e, shown_description v = Raise e) ↔
  unsized v = true ∨
  (∃ l, v = JArr l ∧ (60 < length l)%nat) ∨
  (∃ kvs, v = JObj kvs ∧ (60 < length (dict_keys kvs))%nat).
Proof.
  split.
  - intros [e He]. unfold shown_description in He.
    destruct v as [| | | | s |l|kvs]; cbn [mbind outcome_bind py_len] in *; unfold mret, outcome_ret in *; try by left.
    + destruct (Z.of_nat (String.length s) >? 60); done.
    + right; left. destruct (Z.of_nat (length l) >? 60) eqn:E; [|done].
      exists l. split; [done|lia].
    + right; right. destruct (Z.of_nat (length (dict_keys kvs)) >? 60) eqn:E; [|done].
      exists kvs. split; [done|lia].
  - intros [Hu|[(l & -> & Hl)|(kvs & -> & Hl)]].
    + exists TypeError. by destruct v.
    + exists TypeError. unfold shown_description. cbn [mbind outcome_bind mret outcome_ret py_len].
      by destruct (Z.of_nat (length l) >? 60) eqn:E; [|lia].
    + exists TypeError. unfold shown_description. cbn [mbind outcome_bind mret outcome_ret py_len].
      by destruct (Z.of_nat (length (dict_keys kvs)) >? 60) eqn:E; [|lia].
Qed.

(** *** The counter *)


Lemma filter_counts_as_passing_strs (l : list string) :
  List.filter counts_as_passing (JStr <$> l) = [].
Proof. by induction l. Qed.

(** X5: when the "features" member is a str or an object rather than an
    array, nothing is counted as passing and the total is its length (the
    number of characters, or of keys). *)
Theorem count_passing_tests_features_not_array dir fs kvs v n :
  fs !! path_join dir "feature_list.json" = Some (Json (JObj kvs)) →
  to_dict kvs !! "features" = Some v →
  isinstance_list v = false →
  py_len v = Ret n →
  count_passing_tests dir fs = Ret (0, n).
Proof.
  intros Hfs Hv Hl Hn. unfold count_passing_tests. rewrite Hfs. simpl. rewrite Hv, Hn. simpl.
  destruct v; try done; simpl; by rewrite filter_counts_as_passing_strs.
Qed.

Lemma length_filter_Permutation {A} (f : A → bool) (l l' : list A) :
  l ≡ₚ l' → length (List.filter f l) = length (List.filter f l').
Proof.
  induction 1 as [|x l l' _ IH|x y l|l l' l'' _ IH _ IH']; simpl; try done.
  - destruct (f x); simpl; by rewrite IH.
  - by destruct (f x), (f y).
  - by rewrite IH.
Qed.

(** X6: the counter does not depend on the order of the manifest: two bare
    arrays with the same entries in any order give the same pair, although
    the cached indices are positions. *)
Theorem count_passing_tests_permutation dir fs fs' l l' :
  fs !! path_join dir "feature_list.json" = Some (Json (JArr l)) →
  fs' !! path_join dir "feature_list.json" = Some (Json (JArr l')) →
  l ≡ₚ l' →
  count_passing_tests dir fs = count_passing_tests dir fs'.
Proof.
  intros Hfs Hfs' Hperm.
  rewrite (count_passing_tests_array _ _ _ Hfs), (count_passing_tests_array _ _ _ Hfs').
  by rewrite (length_filter_Permutation _ _ _ Hperm), (Permutation_length Hperm).
Qed.

(** *** The scan *)

Lemma for_enumerate_note_passing_app i tests acc :
  ∃ new,
    for_enumerate note_passing i tests acc = acc ++ new ∧
    StronglySorted lt new ∧
    Forall (λ k, (i ≤ k)%nat ∧
                 ∃ test, tests !! (k - i)%nat = Some test ∧ counts_as_passing test = true) new ∧
    (length new ≤ length (List.filter counts_as_passing tests))%nat.
Proof.
  assert (∀ i tests acc, ∃ new : list nat,
    acc = acc ++ new ∧ StronglySorted lt new ∧
    Forall (λ k, (i ≤ k)%nat ∧
                 ∃ test, tests !! (k - i)%nat = Some test ∧ counts_as_passing test = true) new ∧
    (length new ≤ length (List.filter counts_as_passing tests))%nat) as Hnil.
  { intros i' tests' acc'. exists []. rewrite app_nil_r.
    split; [done|]. split; [constructor|]. split; [constructor|simpl; lia]. }
  revert i acc. induction tests as [|test tests IH]; intros i acc; [apply Hnil|].
  destruct test as [| | | | | |kvs]; try apply Hnil.
  simpl. destruct (truthy (dict_get kvs "passes" (JBool false))) eqn:Hp; simpl.
  - destruct (IH (S i) (acc ++ [i])) as (new & -> & Hsorted & Hall & Hlen).
    exists (i :: new). split; [by rewrite <-app_assoc|]. split; [|split].
    + constructor; [done|]. eapply Forall_impl; [done|]. simpl. intros k [Hk _]. lia.
    + constructor.
      * split; [done|]. rewrite Nat.sub_diag. simpl. by eexists.
      * eapply Forall_impl; [done|]. simpl. intros k (Hk & test & Htest & Hc).
        split; [lia|]. exists test. split; [|done].
        by replace (k - i)%nat with (S (k - S i)) by lia.
    + simpl. lia.
  - destruct (IH (S i) acc) as (new & -> & Hsorted & Hall & Hlen).
    exists new. split; [done|]. split; [done|]. split; [|done].
    eapply Forall_impl; [done|]. simpl. intros k (Hk & test & Htest & Hc).
    split; [lia|]. exists test. split; [|done].
    by replace (k - i)%nat with (S (k - S i)) by lia.
Qed.

(** X7: on every bare array, whatever its entries, the indices that
    [send_progress_webhook] stores are strictly increasing, each is the
    position of a dict with a truthy [passes], and they are never more than
    the counter's passing count. *)
Theorem scanned_indices_sound dir fs tests :
  fs !! path_join dir "feature_list.json" = Some (Json (JArr tests)) →
  ∃ indices,
    scan note_passing (path_join dir "feature_list.json") [] fs = (Ret indices, fs, []) ∧
    StronglySorted lt indices ∧
    (∀ i, i ∈ indices → ∃ test, tests !! i = Some test ∧ counts_as_passing test = true) ∧
    count_passing_tests dir fs =
      Ret (Z.of_nat (length (List.filter counts_as_passing tests)), Z.of_nat (length tests)) ∧
    (length indices ≤ length (List.filter counts_as_passing tests))%nat.
Proof.
  intros Hfs. eexists. split; [apply scan_eq|].
  unfold scanned. rewrite Hfs. unfold enumerated. simpl.
  destruct (for_enumerate_note_passing_app 0 tests []) as (new & -> & Hsorted & Hall & Hlen).
  simpl. split; [done|]. split; [|split; [by apply count_passing_tests_array|done]].
  intros i Hi. rewrite Forall_forall in Hall.
  destruct (Hall i Hi) as (_ & test & Htest & Hc).
  exists test. by rewrite Nat.sub_0_r in Htest.
Qed.

Lemma for_enumerate_newly_app previous_passing_tests i tests completed indices :
  ∃ completed' indices',
    for_enumerate (note_newly_passing previous_passing_tests) i tests (completed, indices)
      = (completed ++ completed', indices ++ indices') ∧
    length completed' =
      length (List.filter (λ k, negb (int_in (Z.of_nat k) previous_passing_tests)) indices').
Proof.
  revert i completed indices. induction tests as [|test tests IH]; intros i completed indices.
  { exists [], []. by rewrite !app_nil_r. }
  destruct test as [| | | | | |kvs]; try (exists [], []; by rewrite !app_nil_r).
  simpl. destruct (truthy (dict_get kvs "passes" (JBool false))); simpl; [|apply IH].
  destruct (int_in (Z.of_nat i) previous_passing_tests) eqn:Hin; simpl.
  - destruct (IH (S i) completed (indices ++ [i])) as (c' & i' & -> & Hlen).
    exists c', (i :: i'). split; [by rewrite <-app_assoc|]. simpl. by rewrite Hin.
  - destruct (truthy (dict_get kvs "category" (JStr ""))); simpl;
      match goal with
      | |- context [for_enumerate _ _ _ (completed ++ [?entry], _)] =>
        destruct (IH (S i) (completed ++ [entry]) (indices ++ [i])) as (c' & i' & -> & Hlen);
        exists (entry :: c'), (i :: i'); split; [by rewrite <-!app_assoc|];
        simpl; by rewrite Hin, Hlen
      end.
Qed.

(** X8: the scan reports one newly completed entry for each index it finds
    that is not among the cached indices, and none for an index that is
    cached; so there are never more entries than indices, and none at all
    when every index found is cached. *)
Theorem newly_completed_are_the_uncached previous_passing_tests tests_file fs :
  ∃ completed indices,
    scan (note_newly_passing previous_passing_tests) tests_file ([], []) fs
      = (Ret (completed, indices), fs, []) ∧
    length completed =
      length (List.filter (λ k, negb (int_in (Z.of_nat k) previous_passing_tests)) indices) ∧
    (length completed ≤ length indices)%nat ∧
    (Forall (λ k, int_in (Z.of_nat k) previous_passing_tests = true) indices → completed = []).
Proof.
  rewrite scan_eq. unfold scanned.
  destruct (fs !! tests_file) as [f|].
  - destruct (for_enumerate_newly_app previous_passing_tests 0 (enumerated (json_load f)) [] [])
      as (completed & indices & -> & Hlen).
    exists completed, indices. simpl. split; [done|]. split; [done|]. split.
    + rewrite Hlen. apply length_filter_le.
    + intros Hall. apply length_zero_iff_nil. rewrite Hlen.
      clear Hlen. induction Hall as [|k ks Hk _ IH]; simpl; [done|]. by rewrite Hk.
  - exists [], []. simpl. repeat split; try done. 
Qed.

(** *** The milestone evaluator *)

Lemma as_number_raise (v : value) e : as_number v = Raise e → e = TypeError.
Proof. destruct v; simpl; try done; by intros [= <-]. Qed.

Lemma mapM_shown_description_raise l e :
  mapM shown_description l = Raise e → e = TypeError.
Proof.
  induction l as [|test l IH]; simpl; [done|].
  destruct (shown_description test) as [line|e'] eqn:Ht; simpl.
  - destruct (mapM shown_description l); simpl; [done|].
    intros [= <-]. by apply IH.
  - intros [= <-]. by eapply shown_description_raise.
Qed.

Lemma build_message_raise_type o passing total milestone dir completed e :
  build_message o passing total milestone dir completed = Raise e → e = TypeError.
Proof.
  unfold build_message. rewrite percentage_of_eq.
  destruct (truthy (JArr completed)); [|done].
  destruct (mapM shown_description (recent_of completed)) as [lines|e'] eqn:Hm; [done|].
  simpl. intros [= <-]. by eapply mapM_shown_description_raise.
Qed.

Lemma check_telegram_milestone_shape cfg o passing previous total dir completed fs :
  check_telegram_milestone cfg o passing previous total dir completed fs
    = (Raise TypeError, fs, []) ∨
  ∃ out,
    check_telegram_milestone cfg o passing previous total dir completed fs = (Ret (), fs, out) ∧
    webhook_posts out = [] ∧ (length (telegram_posts out) ≤ 1)%nat.
Proof.
  rewrite check_telegram_milestone_cases.
  destruct (_ || _); [right; exists []; split; [done|]; split; [done|simpl; lia]|].
  destruct (as_number previous) as [prev|e] eqn:Hprev;
    [|left; by rewrite (as_number_raise _ _ Hprev)].
  destruct (int_gt _ _); [|right; exists []; split; [done|]; split; [done|simpl; lia]].
  destruct (build_message _ _ _ _ _ _) as [msg|e] eqn:Hmsg;
    [|left; by rewrite (build_message_raise_type _ _ _ _ _ _ _ Hmsg)].
  right. eexists. split; [done|]. destruct (telegram_up o); simpl; split; (done || lia).
Qed.

(** The clock and the network decide nothing but the trace. *)
Lemma check_telegram_milestone_oracle cfg o1 o2 passing previous total dir completed fs fs' :
  (check_telegram_milestone cfg o1 passing previous total dir completed fs).1.1 =
  (check_telegram_milestone cfg o2 passing previous total dir completed fs').1.1.
Proof.
  rewrite !check_telegram_milestone_cases.
  destruct (_ || _); [done|].
  destruct (as_number previous) as [prev|e]; [|done].
  destruct (int_gt _ _); [|done].
  destruct (build_message o1 _ _ _ _ _) as [msg1|e1] eqn:H1.
  - destruct (build_message o2 _ _ _ _ _) as [msg2|e2] eqn:H2; [done|].
    by rewrite (build_message_raise o2 o1 _ _ _ _ _ _ H2) in H1.
  - by rewrite (build_message_raise o1 o2 _ _ _ _ _ _ H1).
Qed.

(** X9: [check_telegram_milestone] never touches a file and never posts to
    the webhook; it makes at most one request to the bot, however many
    milestones the count jumped over; and the only exception it lets out is
    [TypeError], raised before anything is sent. *)
Theorem check_telegram_milestone_frame cfg o passing previous total dir completed fs :
  let run := check_telegram_milestone cfg o passing previous total dir completed fs in
  run.1.2 = fs ∧
  webhook_posts run.2 = [] ∧
  (length (telegram_posts run.2) ≤ 1)%nat ∧
  (∀ e, run.1.1 = Raise e → e = TypeError ∧ run.2 = []).
Proof.
  cbv zeta.
  destruct (check_telegram_milestone_shape cfg o passing previous total dir completed fs)
    as [-> | (out & -> & Hw & Ht)]; simpl.
  - split; [done|]. split; [done|]. split; [lia|]. by intros e [= <-].
  - split; [done|]. split; [done|]. split; [done|]. by intros e.
Qed.

(** X10: with the bot configured and str descriptions, a count that went up
    by ten or more is always announced, once, at the last multiple of ten it
    reached; a count that did not go up is never announced. *)
Theorem milestone_on_jump cfg o passing previous total dir (descs : list string) fs :
  is_set (TELEGRAM_BOT_TOKEN cfg) = true →
  is_set (TELEGRAM_CHAT_ID cfg) = true →
  let announced :=
    msg_milestone <$>
      telegram_posts
        (check_telegram_milestone cfg o passing (JInt previous) total dir
           (JStr <$> descs) fs).2 in
  (previous + 10 ≤ passing →
     ∃ milestone, announced = [milestone] ∧ milestone `mod` 10 = 0 ∧
                  passing - 10 < milestone ≤ passing ∧ previous < milestone) ∧
  (passing ≤ previous → announced = []).
Proof.
  intros Htok Hchat. cbv zeta.
  destruct (check_telegram_milestone_text cfg o passing previous total dir descs fs Htok Hchat)
    as (msg & Hm & _ & ->). simpl.
  pose proof (Z.div_mod passing 10 ltac:(lia)) as Hp.
  pose proof (Z.mod_pos_bound passing 10 ltac:(lia)) as Hpb.
  pose proof (Z.div_mod previous 10 ltac:(lia)) as Hq.
  pose proof (Z.mod_pos_bound previous 10 ltac:(lia)) as Hqb.
  split.
  - intros Hjump. exists (passing `div` 10 * 10).
    destruct (previous `div` 10 * 10 <? passing `div` 10 * 10) eqn:Hlt.
    + simpl. rewrite Hm. split; [by destruct (telegram_up o)|].
      split; [by rewrite Z.mod_mul|]. lia.
    + apply Z.ltb_ge in Hlt. lia.
  - intros Hle.
    destruct (previous `div` 10 * 10 <? passing `div` 10 * 10) eqn:Hlt; [|done].
    apply Z.ltb_lt in Hlt. lia.
Qed.

(** *** The cache *)


Lemma int_in_written (indices : list nat) (i : nat) :
  int_in (Z.of_nat i) ((λ k, JInt (Z.of_nat k) : value) <$> indices) = true ↔ i ∈ indices.
Proof.
  unfold int_in. induction indices as [|k indices IH]; simpl.
  - split; [done|]. by intros ?%elem_of_nil.
  - rewrite orb_true_iff, IH, elem_of_cons. split.
    + intros [Hk|?]; [left|by right]. apply Z.eqb_eq in Hk. lia.
    + intros [->|?]; [left|by right]. by apply Z.eqb_eq.
Qed.

(** X12: the cache round trip.  Reading back what the tracker wrote gives
    the count it wrote, and an index is in the set read exactly when it was
    in the list written. *)
Theorem cache_round_trip cache_file passing indices fs :
  ∃ previous_passing_tests,
    (write_json cache_file (cache_record passing indices) ≫= λ _, read_previous cache_file) fs
      = (Ret (JInt passing, previous_passing_tests),
         <[cache_file := Json (cache_record passing indices)]> fs, []) ∧
    ∀ i, int_in (Z.of_nat i) previous_passing_tests = true ↔ i ∈ indices.
Proof.
  eexists. split.
  - rewrite io_bind_eq. unfold write_json.
    by rewrite read_previous_eq, cached_progress_written.
  - apply int_in_written.
Qed.

(** *** The notifier and the cache writer *)

Lemma send_progress_webhook_shape cfg o passing total dir fs :
  send_progress_webhook cfg o passing total dir fs = (Raise TypeError, fs, []) ∨
  (∃ out, send_progress_webhook cfg o passing total dir fs = (Ret (), fs, out) ∧
          is_Some (fs !! path_join dir PROGRESS_CACHE_FILE)) ∨
  (∃ indices out,
     send_progress_webhook cfg o passing total dir fs =
       (Ret (), <[path_join dir PROGRESS_CACHE_FILE := Json (cache_record passing indices)]> fs,
        out)).
Proof.
  rewrite send_progress_webhook_eq. cbv zeta.
  destruct (as_number _) as [prev|e] eqn:Hprev;
    [|left; by rewrite (as_number_raise _ _ Hprev)].
  destruct (int_gt passing prev).
  - match goal with
    | |- context [check_telegram_milestone ?c ?o ?p ?v ?t ?d ?l ?f] =>
      destruct (check_telegram_milestone_shape c o p v t d l f) as [-> | (out1 & -> & _)]
    end; [by left|].
    rewrite post_webhook_cases, Hprev.
    right; right. destruct (is_set (WEBHOOK_URL cfg)); by eexists _, _.
  - destruct (bool_decide _) eqn:Hex.
    + right; left. eexists. split; [done|]. by apply bool_decide_eq_true_1 in Hex.
    + right; right. by eexists _, _.
Qed.


(** X14: a run of [print_progress_summary] leaves every file but the cache
    of the project as it was, the manifest among them; and once a run over a
    manifest with tests has returned, the cache file exists. *)
Theorem print_progress_summary_frame cfg o dir fs :
  let run := print_progress_summary cfg o dir fs in
  (∀ p, p ≠ path_join dir PROGRESS_CACHE_FILE → run.1.2 !! p = fs !! p) ∧
  (∀ passing total,
     count_passing_tests dir fs = Ret (passing, total) → total > 0 → run.1.1 = Ret () →
     is_Some (run.1.2 !! path_join dir PROGRESS_CACHE_FILE)).
Proof.
  cbv zeta. rewrite print_progress_summary_eq.
  destruct (count_passing_tests dir fs) as [[passing total]|e]; [|by split].
  destruct (total >? 0) eqn:Hpos; [|split; [done|]; intros ?? [= <- <-]; lia].
  cbv zeta. simpl.
  destruct (send_progress_webhook_shape cfg o passing total dir fs)
    as [-> | [(out & -> & Hex) | (indices & out & ->)]]; simpl.
  - by split.
  - by split.
  - split; [intros p Hp; by rewrite lookup_insert_ne|].
    intros _ _ _ _ _. by rewrite lookup_insert_eq.
Qed.

(** X15: the clock and the network decide nothing but the trace: the result
    of [send_progress_webhook] and the files it leaves are the same whether or
    not the requests go through. *)
Theorem send_progress_webhook_best_effort cfg o1 o2 passing total dir fs :
  (send_progress_webhook cfg o1 passing total dir fs).1 =
  (send_progress_webhook cfg o2 passing total dir fs).1.
Proof.
  rewrite !send_progress_webhook_eq. cbv zeta.
  destruct (as_number _) as [prev|e] eqn:Hprev; [|done].
  destruct (int_gt passing prev); [|by destruct (bool_decide _)].
  match goal with
  | |- context [check_telegram_milestone ?c o1 ?p ?v ?t ?d ?l ?f] =>
    pose proof (check_telegram_milestone_oracle c o1 o2 p v t d l f f) as Hsame;
    destruct (check_telegram_milestone_shape c o1 p v t d l f) as [H1 | (out1 & H1 & _)];
    destruct (check_telegram_milestone_shape c o2 p v t d l f) as [H2 | (out2 & H2 & _)];
    rewrite H1, H2 in Hsame |- *; try done
  end.
  rewrite !post_webhook_cases, Hprev.
  by destruct (is_set (WEBHOOK_URL cfg)).
Qed.

(** X16: when the count read from the cache is a number that the passing
    count does not exceed, [send_progress_webhook] returns without a request
    and without a line on the console. *)
Theorem send_progress_webhook_quiet cfg o passing total dir fs
    previous previous_passing_tests prev :
  read_previous (path_join dir PROGRESS_CACHE_FILE) fs
    = (Ret (previous, previous_passing_tests), fs, []) →
  as_number previous = Ret prev →
  int_gt passing prev = false →
  (send_progress_webhook cfg o passing total dir fs).1.1 = Ret () ∧
  (send_progress_webhook cfg o passing total dir fs).2 = [].
Proof.
  intros Hread Hprev Hgt. rewrite read_previous_eq in Hread. injection Hread as Hread.
  rewrite send_progress_webhook_eq. cbv zeta. rewrite Hread. simpl fst.
  rewrite Hprev, Hgt. by destruct (bool_decide _).
Qed.





Lemma telegram_posts_app out1 out2 :
  telegram_posts (out1 ++ out2) = telegram_posts out1 ++ telegram_posts out2.
Proof. apply omap_app. Qed.

Lemma send_progress_webhook_requests cfg o passing total dir fs :
  (length (telegram_posts (send_progress_webhook cfg o passing total dir fs).2) ≤ 1)%nat ∧
  (length (webhook_posts (send_progress_webhook cfg o passing total dir fs).2) ≤ 1)%nat.
Proof.
  rewrite send_progress_webhook_eq. cbv zeta.
  destruct (as_number _) as [prev|e] eqn:Hprev; [|simpl; lia].
  destruct (int_gt passing prev); [|destruct (bool_decide _); simpl; lia].
  match goal with
  | |- context [check_telegram_milestone ?c ?o ?p ?v ?t ?d ?l ?f] =>
    destruct (check_telegram_milestone_shape c o p v t d l f) as [-> | (out1 & -> & Hw & Ht)]
  end; [simpl; lia|].
  rewrite post_webhook_cases, Hprev.
  destruct (is_set (WEBHOOK_URL cfg)); simpl snd.
  - rewrite telegram_posts_app, webhook_posts_app, Hw, !length_app. simpl.
    destruct (webhook_up o); simpl; lia.
  - rewrite app_nil_r, Hw. simpl. lia.
Qed.

(** X19: one run of [print_progress_summary] makes at most one request to
    the bot and at most one to the webhook. *)
Theorem print_progress_summary_requests cfg o dir fs :
  (length (telegram_posts (print_progress_summary cfg o dir fs).2) ≤ 1)%nat ∧
  (length (webhook_posts (print_progress_summary cfg o dir fs).2) ≤ 1)%nat.
Proof.
  rewrite print_progress_summary_eq.
  destruct (count_passing_tests dir fs) as [[passing total]|e]; [|simpl; lia].
  destruct (total >? 0); [|simpl; lia].
  cbv zeta. simpl. apply send_progress_webhook_requests.
Qed.

End Further.

(** ** The tracker on concrete projects *)

#[local] Existing Instance integer_runtime.

(** C1: on a manifest in the wrapped form, [{"features": [...]}], the counter
    finds one passing test of one, and the run that follows stores the count 1
    with no index at all: the scan of [send_progress_webhook] iterates over the
    keys of the object, where the counter takes its "features" member. *)
Theorem cache_record_of_wrapped_manifest :
  let wrapped := JObj [("features", JArr [Sample.feature "login works" true])] in
  count_passing_tests Sample.project_dir (Sample.fresh wrapped) = Ret (1, 1) ∧
  (print_progress_summary Sample.all_sinks Sample.clock Sample.project_dir
     (Sample.fresh wrapped)).1 =
    (Ret (), <[Sample.cache_file := Json (cache_record 1 [])]> (Sample.fresh wrapped)).
Proof. split; reflexivity. Qed.

(** The same happens on a bare array once an entry is not a dict: the scan
    stops there, the counter goes on. *)
Example cache_record_of_array_with_literal :
  let tests := JArr [JInt 5; Sample.feature "login works" true] in
  count_passing_tests Sample.project_dir (Sample.fresh tests) = Ret (1, 2) ∧
  (print_progress_summary Sample.no_sink Sample.clock Sample.project_dir
     (Sample.fresh tests)).1 =
    (Ret (), <[Sample.cache_file := Json (cache_record 1 [])]> (Sample.fresh tests)).
Proof. split; reflexivity. Qed.

(** C2, as the claim states it: a record whose [passes] is [1] is counted,
    though its [passes] is not the boolean [true]; the count is 1 where the
    claim's count is 0. *)
Lemma count_passing_tests_counts_truthy :
  let tests : list value := [JObj [("passes", JInt 1)]] in
  count_passing_tests Sample.project_dir (Sample.fresh (JArr tests)) = Ret (1, 1) ∧
  count_passing_tests Sample.project_dir (Sample.fresh (JArr tests)) ≠
    Ret (Z.of_nat (length (List.filter passes_strictly tests)), Z.of_nat (length tests)).
Proof. split; [reflexivity|]. vm_compute. discriminate. Qed.

Lemma count_passing_tests_truthy_witness :
  count_passing_tests Sample.project_dir
    (Sample.fresh (JArr [Sample.feature "a" true; JObj [("passes", JStr "yes")];
                         Sample.feature "b" false])) = Ret (2, 3).
Proof.
  exact (proj1 (count_passing_tests_truthy Sample.project_dir
                  (Sample.fresh (JArr [Sample.feature "a" true; JObj [("passes", JStr "yes")];
                                       Sample.feature "b" false])) _ eq_refl)
               _ (or_introl eq_refl)).
Defined.

(** C3: [len] of a "features" member that is a number raises [TypeError],
    which the handler of [count_passing_tests] does not take; so do a
    manifest that is not text, with [UnicodeDecodeError], and, in
    [send_progress_webhook], a cached count that is a string. *)
Theorem exceptions_reach_the_caller :
  count_passing_tests Sample.project_dir
    (Sample.fresh (JObj [("features", JInt 5)])) = Raise TypeError ∧
  (print_progress_summary Sample.no_sink Sample.clock Sample.project_dir
     (Sample.fresh (JObj [("features", JInt 5)]))).1.1 = Raise TypeError ∧
  count_passing_tests Sample.project_dir {[ Sample.tests_file := NotText ]}
    = Raise UnicodeDecodeError ∧
  (send_progress_webhook Sample.no_sink Sample.clock 1 1 Sample.project_dir
     (Sample.cached (JArr [Sample.feature "a" true]) (JObj [("count", JStr "1")]))).1.1
    = Raise TypeError.
Proof. repeat split; reflexivity. Qed.

(** A run from 9 to 10 passing tests with the bot configured announces 10. *)
Lemma check_telegram_milestone_trigger_witness :
  msg_milestone <$>
    telegram_posts
      (check_telegram_milestone Sample.all_sinks Sample.clock 10 (JInt 9) 12
         Sample.project_dir (JStr <$> ["login works"]) ∅).2 = [10].
Proof.
  exact (proj1 (proj2 (proj1 (check_telegram_milestone_trigger Sample.all_sinks Sample.clock
                                12 Sample.project_dir ["login works"] ∅)
                             eq_refl eq_refl))).
Defined.

(** Two of two tests pass and the cache holds the count 1 with index 0: the
    webhook gets one payload, which names the second test. *)
Lemma webhook_posted_on_increase_witness :
  let fs := Sample.cached (JArr [Sample.feature "login works" true;
                                 Sample.feature "logout works" true])
                          (cache_record 1 [0%nat]) in
  ∃ percentage newly_completed,
    percentage_of 2 2 = Ret percentage ∧
    scan (note_newly_passing [JInt 0]) Sample.tests_file ([], []) fs
      = (Ret newly_completed, fs, []) ∧
    (send_progress_webhook Sample.all_sinks Sample.clock 2 2 Sample.project_dir fs).1.1
      = Ret () ∧
    webhook_posts (send_progress_webhook Sample.all_sinks Sample.clock 2 2
                     Sample.project_dir fs).2 =
      [[ {| pl_event := "test_progress";
            pl_passing := 2;
            pl_total := 2;
            pl_percentage := percentage;
            pl_previous_passing := JInt 1;
            pl_tests_completed_this_session := NInt 1;
            pl_completed_tests := newly_completed.1;
            pl_project := "my_project";
            pl_timestamp := "2025-01-01T11:00:00.000000Z" |} ]].
Proof.
  intros fs.
  apply (webhook_posted_on_increase Sample.all_sinks Sample.clock 2 2 Sample.project_dir
           fs 1 [JInt 0]).
  - reflexivity.
  - reflexivity.
  - sample_descriptions_are_text.
Defined.

(** The same run writes the cache with the count 2 and both indices. *)
Lemma cache_written_on_increase_or_first_run_witness :
  let fs := Sample.cached (JArr [Sample.feature "login works" true;
                                 Sample.feature "logout works" true])
                          (cache_record 1 [0%nat]) in
  ∃ current_passing_indices,
    scan note_passing Sample.tests_file [] fs = (Ret current_passing_indices, fs, []) ∧
    (send_progress_webhook Sample.all_sinks Sample.clock 2 2 Sample.project_dir fs).1 =
      (Ret (), <[Sample.cache_file := Json (cache_record 2 current_passing_indices)]> fs).
Proof.
  intros fs.
  apply (cache_written_on_increase_or_first_run Sample.all_sinks Sample.clock 2 2
           Sample.project_dir fs 1 [JInt 0]).
  - reflexivity.
  - sample_descriptions_are_text.
Defined.

(** A manifest that is a bare string has no test: only the placeholder is
    printed. *)
Lemma print_progress_summary_placeholder_witness :
  print_progress_summary Sample.all_sinks Sample.clock Sample.project_dir
    (Sample.fresh (JStr "soon"))
  = (Ret (), Sample.fresh (JStr "soon"), [Print NotYetCreated]).
Proof.
  apply (print_progress_summary_placeholder Sample.all_sinks Sample.clock
           Sample.project_dir (Sample.fresh (JStr "soon")) 0).
  reflexivity.
Defined.

(** The first run of the specification: no cache, 3 of 10 tests pass; the
    branch for an increase writes the count 3 and the three indices. *)
Example first_run_three_of_ten :
  let tests :=
    JArr ((λ i, Sample.feature ("feature " +:+ pretty i) (bool_decide (i ∈ [1; 4; 6]%nat)))
            <$> seq 0 10) in
  count_passing_tests Sample.project_dir (Sample.fresh tests) = Ret (3, 10) ∧
  (print_progress_summary Sample.no_sink Sample.clock Sample.project_dir
     (Sample.fresh tests)).1 =
    (Ret (), <[Sample.cache_file := Json (cache_record 3 [1; 4; 6]%nat)]> (Sample.fresh tests)).
Proof. split; vm_compute; reflexivity. Qed.

(** A wrapped manifest whose "features" member is the string "abc". *)
Lemma count_passing_tests_features_not_array_witness :
  count_passing_tests Sample.project_dir
    (Sample.fresh (JObj [("features", JStr "abc")])) = Ret (0, 3).
Proof.
  apply (count_passing_tests_features_not_array Sample.project_dir
           (Sample.fresh (JObj [("features", JStr "abc")]))
           [("features", JStr "abc")] (JStr "abc") 3);
    reflexivity.
Defined.

Lemma count_passing_tests_permutation_witness :
  count_passing_tests Sample.project_dir
    (Sample.fresh (JArr [Sample.feature "a" true; Sample.feature "b" false])) =
  count_passing_tests Sample.project_dir
    (Sample.fresh (JArr [Sample.feature "b" false; Sample.feature "a" true])).
Proof.
  apply (count_passing_tests_permutation Sample.project_dir _ _
           [Sample.feature "a" true; Sample.feature "b" false]
           [Sample.feature "b" false; Sample.feature "a" true]).
  - reflexivity.
  - reflexivity.
  - apply perm_swap.
Defined.

(** The literal ends the scan: index 0 is stored, the counter counts 2. *)
Lemma scanned_indices_sound_witness :
  let tests := [Sample.feature "a" true; JInt 5; Sample.feature "b" true] in
  ∃ indices,
    scan note_passing Sample.tests_file [] (Sample.fresh (JArr tests))
      = (Ret indices, Sample.fresh (JArr tests), []) ∧
    StronglySorted lt indices ∧
    (∀ i, i ∈ indices → ∃ test, tests !! i = Some test ∧ counts_as_passing test = true) ∧
    count_passing_tests Sample.project_dir (Sample.fresh (JArr tests)) = Ret (2, 3) ∧
    (length indices ≤ 2)%nat.
Proof.
  intros tests.
  apply (scanned_indices_sound Sample.project_dir (Sample.fresh (JArr tests)) tests).
  reflexivity.
Defined.

Lemma cache_record_invariant_on_records_witness :
  let tests := [Sample.feature "a" true; Sample.feature "b" false] in
  ∃ passing total,
    count_passing_tests Sample.project_dir (Sample.fresh (JArr tests)) = Ret (passing, total) ∧
    Z.of_nat (length (scanned note_passing Sample.tests_file [] (Sample.fresh (JArr tests))))
      = passing ∧
    Forall (λ i, 0 ≤ Z.of_nat i < total)
      (scanned note_passing Sample.tests_file [] (Sample.fresh (JArr tests))).
Proof.
  intros tests.
  apply (cache_record_invariant_on_records Sample.project_dir
           (Sample.fresh (JArr tests)) tests).
  - reflexivity.
  - repeat constructor.
Defined.

(** From 3 to 25 passing tests: one announcement, of 20. *)
Lemma milestone_on_jump_witness :
  ∃ milestone,
    msg_milestone <$>
      telegram_posts
        (check_telegram_milestone Sample.all_sinks Sample.clock 25 (JInt 3) 30
           Sample.project_dir (JStr <$> ["login works"]) ∅).2 = [milestone] ∧
    milestone `mod` 10 = 0 ∧ 25 - 10 < milestone ≤ 25 ∧ 3 < milestone.
Proof.
  apply (milestone_on_jump Sample.all_sinks Sample.clock 25 3 30 Sample.project_dir
           ["login works"] ∅ eq_refl eq_refl).
  vm_compute. discriminate.
Defined.



(** Two of two tests pass and the cache already says so. *)
Lemma send_progress_webhook_quiet_witness :
  let fs := Sample.cached (JArr [Sample.feature "a" true; Sample.feature "b" true])
                          (cache_record 2 [0; 1]%nat) in
  (send_progress_webhook Sample.all_sinks Sample.clock 2 2 Sample.project_dir fs).1.1 = Ret () ∧
  (send_progress_webhook Sample.all_sinks Sample.clock 2 2 Sample.project_dir fs).2 = [].
Proof.
  intros fs.
  apply (send_progress_webhook_quiet Sample.all_sinks Sample.clock 2 2 Sample.project_dir fs
           (JInt 2) [JInt 0; JInt 1] (NInt 2)); reflexivity.
Defined.


